(** * mini-rag: the document assistant's completion client

    A shallow embedding of [Front-app/Assistant.py]: the guard clause, the
    request construction, the retry loop with exponential backoff and the
    answer extraction of [call_gemini_api], and the truncation step of the
    Streamlit controller that calls it.

    Python values that come from [response.json()] are modelled by the
    inductive type [json] (a [dict] is a [gmap] with string keys), Python
    exceptions by a class tag and the text of [str(e)], and the effects of
    the client (HTTP POSTs, [print], [time.sleep], Streamlit notices) by a
    trace of events threaded through a small state-and-exception monad. *)

From Stdlib Require Import ZArith String Ascii List DecimalString Lia.
From stdpp Require Import base strings gmap list.

#[local] Set Warnings "-register-all".
#[local] Open Scope string_scope.
#[local] Open Scope Z_scope.

(** ** Python values *)

(** The values [json.loads] builds.  A float is kept by its literal: the
    client never computes with one. *)
Inductive json : Type :=
| JNull
| JBool (b : bool)
| JInt (z : Z)
| JFloat (literal : string)
| JStr (s : string)
| JList (items : list json)
| JDict (fields : gmap string json).

(** [type(v).__name__] *)
Definition type_name (v : json) : string :=
  match v with
  | JNull => "NoneType"
  | JBool _ => "bool"
  | JInt _ => "int"
  | JFloat _ => "float"
  | JStr _ => "str"
  | JList _ => "list"
  | JDict _ => "dict"
  end.

(** [str(n)] for an [int]. *)
Definition str_int (z : Z) : string := NilZero.string_of_int (Z.to_int z).

(** The newline character of the Python literals. *)
Definition nl : string := String "010"%char EmptyString.

(** Truthiness of a [str]: only the empty string is falsy. *)
Definition truthy (s : string) : bool :=
  match s with
  | EmptyString => false
  | String _ _ => true
  end.

(** [len(s)] *)
Definition len (s : string) : Z := Z.of_nat (String.length s).

(** ** Exceptions *)

(** The exception classes that matter to the two [except] clauses.  The
    first four derive from [requests.exceptions.RequestException]; all of
    them derive from [Exception]. *)
Inductive exn_class : Type :=
| HTTPError
| ConnectionError
| Timeout
| RequestsJSONDecodeError
| ValueError
| IndexError
| KeyError
| TypeError
| AttributeError
| UnboundLocalError
| OtherException.

Record exn : Type := mk_exn { exn_cls : exn_class; exn_msg : string }.

(** [isinstance(e, requests.exceptions.RequestException)] *)
Definition is_RequestException (e : exn) : bool :=
  match exn_cls e with
  | HTTPError | ConnectionError | Timeout | RequestsJSONDecodeError => true
  | _ => false
  end.

Inductive res (A : Type) : Type :=
| Ok (a : A)
| Raise (e : exn).
Arguments Ok {A} a.
Arguments Raise {A} e.

(** ** Dictionary and sequence access, as the interpreter does it *)

(** [v.get(key, default)] *)
Definition py_get (v : json) (key : string) (dflt : json) : res json :=
  match v with
  | JDict m => Ok (default dflt (m !! key))
  | _ => Raise (mk_exn AttributeError
                  ("'" ++ type_name v ++ "' object has no attribute 'get'"))
  end.

(** [v[0]].  The keys of a dictionary read from JSON are strings, so the
    key [0] is never present. *)
Definition py_item0 (v : json) : res json :=
  match v with
  | JList (x :: _) => Ok x
  | JList [] => Raise (mk_exn IndexError "list index out of range")
  | JStr (String c _) => Ok (JStr (String c EmptyString))
  | JStr EmptyString => Raise (mk_exn IndexError "string index out of range")
  | JDict _ => Raise (mk_exn KeyError "0")
  | _ => Raise (mk_exn TypeError
                  ("'" ++ type_name v ++ "' object is not subscriptable"))
  end.

Definition rbind {A B : Type} (r : res A) (k : A -> res B) : res B :=
  match r with
  | Ok a => k a
  | Raise e => Raise e
  end.

(** The expression of line 96:
    [result.get('candidates', [{}])[0].get('content', {}).get('parts', [{}])[0].get('text', 'No response generated.')] *)
Definition extract_text (result : json) : res json :=
  rbind (py_get result "candidates" (JList [JDict ∅])) (fun candidates =>
  rbind (py_item0 candidates) (fun candidate =>
  rbind (py_get candidate "content" (JDict ∅)) (fun content =>
  rbind (py_get content "parts" (JList [JDict ∅])) (fun parts =>
  rbind (py_item0 parts) (fun part =>
  py_get part "text" (JStr "No response generated.")))))).

(** ** The HTTP transport *)

(** What the client reads of a [requests.Response]: the status line, the
    URL, and what [response.json()] does (return the decoded body or raise). *)
Record Response : Type := mk_Response {
  status_code : Z;
  reason : string;
  url : string;
  json_body : res json
}.

(** What one call of [requests.post] does. *)
Inductive post_outcome : Type :=
| PostReturns (r : Response)
| PostRaises (e : exn).

(** The remote side: the outcome of the n-th POST of the process, from 0. *)
Definition transport : Type := nat -> post_outcome.

(** [Response.raise_for_status] of the requests library: it builds
    [http_error_msg], empty unless the status is 4xx or 5xx, and raises an
    [HTTPError] carrying it when it is not empty. *)
Definition http_error_msg (r : Response) : string :=
  if (400 <=? status_code r) && (status_code r <? 500) then
    str_int (status_code r) ++ " Client Error: " ++ reason r
    ++ " for url: " ++ url r
  else if (500 <=? status_code r) && (status_code r <? 600) then
    str_int (status_code r) ++ " Server Error: " ++ reason r
    ++ " for url: " ++ url r
  else EmptyString.

Definition raise_for_status (r : Response) : res unit :=
  if truthy (http_error_msg r) then Raise (mk_exn HTTPError (http_error_msg r))
  else Ok tt.

(** ** Effects *)

(** Observable actions.  [EvPost] records the arguments of [requests.post];
    its [data] is the value handed to [json.dumps]. *)
Inductive event : Type :=
| EvPost (target : string) (headers : gmap string string) (data : json)
| EvPrint (msg : string)
| EvSleep (seconds : Z)
| EvWarning (msg : string)
| EvError (msg : string)
| EvInfo (msg : string).

Record world : Type := mk_world { posts : nat; trace : list event }.

(** The frame of one call of [call_gemini_api]: the local [response], unbound
    until the first POST returns, and the world. *)
Record frame : Type := mk_frame { response : option Response; io : world }.

Definition M (A : Type) : Type := frame -> res A * frame.

Definition ret {A : Type} (a : A) : M A := fun s => (Ok a, s).

Definition bind {A B : Type} (c : M A) (k : A -> M B) : M B :=
  fun s =>
    match c s with
    | (Ok a, s') => k a s'
    | (Raise e, s') => (Raise e, s')
    end.

Definition lift {A : Type} (r : res A) : M A := fun s => (r, s).

(** [try: body  except Exception as e: handler e].  An exception raised by
    the handler itself is not caught. *)
Definition try_except {A : Type} (body : M A) (handler : exn -> M A) : M A :=
  fun s =>
    match body s with
    | (Ok a, s') => (Ok a, s')
    | (Raise e, s') => handler e s'
    end.

Notation "x <- c ;; k" := (bind c (fun x => k))
  (at level 100, c at next level, k at level 200, right associativity).
Notation "c ;;; k" := (bind c (fun _ => k))
  (at level 100, k at level 200, right associativity).

Definition emit (ev : event) : M unit :=
  fun s =>
    (Ok tt, mk_frame (response s)
              (mk_world (posts (io s)) (trace (io s) ++ [ev]))).

Definition assign_response (r : Response) : M unit :=
  fun s => (Ok tt, mk_frame (Some r) (io s)).

(** Reading the local [response]. *)
Definition read_response : M Response :=
  fun s =>
    match response s with
    | Some r => (Ok r, s)
    | None =>
        (Raise (mk_exn UnboundLocalError
           "cannot access local variable 'response' where it is not associated with a value"),
         s)
    end.

Definition requests_post (net : transport) (target : string)
    (headers : gmap string string) (data : json) : M Response :=
  fun s =>
    let s' := mk_frame (response s)
                (mk_world (S (posts (io s)))
                   (trace (io s) ++ [EvPost target headers data])) in
    match net (posts (io s)) with
    | PostReturns r => (Ok r, s')
    | PostRaises e => (Raise e, s')
    end.

(** ** Configuration *)

Definition API_KEY : string := EmptyString.
Definition GEMINI_MODEL : string := "gemini-2.5-flash-preview-09-2025".
Definition API_URL : string :=
  "https://generativelanguage.googleapis.com/v1beta/models/" ++ GEMINI_MODEL
  ++ ":generateContent?key=" ++ API_KEY.

(** ** [call_gemini_api] *)

Definition system_prompt : string :=
  "You are a highly efficient document analyst and summarization assistant. "
  ++ "Your primary goal is to answer the user's question with a clear, concise, "
  ++ "and accurate summary based *only* on the provided 'DOCUMENT CONTENT'. "
  ++ "If the information required to answer the question is not present in the content, "
  ++ "you MUST explicitly state, 'I could not find the answer in the provided documents.'".

Definition document_header : string :=
  "--- DOCUMENT CONTENT ---" ++ nl ++ nl.
Definition question_header : string :=
  nl ++ nl ++ "--- USER QUESTION ---" ++ nl ++ nl.
Definition instructions_footer : string :=
  nl ++ nl ++ "--- INSTRUCTIONS ---" ++ nl ++ nl
  ++ "Based ONLY on the document content above, provide the summary or answer the question:".

Definition full_prompt (document_content user_query : string) : string :=
  document_header ++ document_content ++ question_header ++ user_query
  ++ instructions_footer.

Definition text_part (s : string) : json :=
  JDict {[ "text" := JStr s ]}.

Definition payload (document_content user_query : string) : json :=
  JDict {[ "contents" :=
             JList [JDict {[ "parts" :=
                               JList [text_part (full_prompt document_content user_query)] ]}];
           "systemInstruction" :=
             JDict {[ "parts" := JList [text_part system_prompt] ]} ]}.

Definition headers : gmap string string :=
  {[ "Content-Type" := "application/json" ]}.

Definition max_retries : Z := 5.

Definition retryable_statuses : list Z := [429; 500; 503].

(** [x in xs] for a list of integers. *)
Definition py_in (x : Z) (xs : list Z) : bool := existsb (Z.eqb x) xs.
Arguments py_in : simpl never.

(** How an iteration of the [for] loop ends. *)
Inductive ctl : Type :=
| Continue
| Return (v : json).

Definition api_error_message (attempt : Z) (e : exn) : string :=
  "An API error occurred after " ++ str_int (attempt + 1) ++ " attempts: "
  ++ exn_msg e.

Definition unexpected_error_message (e : exn) : string :=
  "An unexpected error occurred: " ++ exn_msg e.

Definition retry_notice (attempt status wait_time : Z) : string :=
  "Attempt " ++ str_int (attempt + 1) ++ " failed (" ++ str_int status
  ++ "). Retrying in " ++ str_int wait_time ++ "s...".

(** The clause [except requests.exceptions.RequestException as e] (lines
    99-106).  [and] evaluates [response.status_code] only when
    [attempt < max_retries - 1] holds. *)
Definition on_request_exception (attempt : Z) (e : exn) : M ctl :=
  if attempt <? max_retries - 1 then
    r <- read_response ;;
    if py_in (status_code r) retryable_statuses then
      let wait_time := 2 ^ attempt in
      r' <- read_response ;;
      emit (EvPrint (retry_notice attempt (status_code r') wait_time)) ;;;
      emit (EvSleep wait_time) ;;;
      ret Continue
    else ret (Return (JStr (api_error_message attempt e)))
  else ret (Return (JStr (api_error_message attempt e))).

(** The two [except] clauses, tried in order (lines 99-108). *)
Definition on_exception (attempt : Z) (e : exn) : M ctl :=
  if is_RequestException e then on_request_exception attempt e
  else ret (Return (JStr (unexpected_error_message e))).

(** The body of the loop (lines 89-108). *)
Definition attempt_body (net : transport) (data : json) (attempt : Z) : M ctl :=
  try_except
    (r <- requests_post net API_URL headers data ;;
     assign_response r ;;;
     lift (raise_for_status r) ;;;
     result <- lift (json_body r) ;;
     text_result <- lift (extract_text result) ;;
     ret (Return text_result))
    (on_exception attempt).

(** [range(n)] *)
Definition py_range (n : Z) : list Z := map Z.of_nat (seq 0 (Z.to_nat n)).

Definition exhausted_message : string :=
  "Failed to get a response from the API after multiple retries.".

(** [for attempt in attempts: body], followed by line 110. *)
Fixpoint retry_loop (net : transport) (data : json) (attempts : list Z) : M json :=
  match attempts with
  | [] => ret (JStr exhausted_message)
  | attempt :: rest =>
      c <- attempt_body net data attempt ;;
      match c with
      | Continue => retry_loop net data rest
      | Return v => ret v
      end
  end.

Definition guard_message : string :=
  "Please upload documents and enter a question.".

Definition call_gemini_api (net : transport)
    (document_content user_query : string) (w : world) : res json * world :=
  if negb (truthy document_content) || negb (truthy user_query) then
    (Ok (JStr guard_message), w)
  else
    let '(r, s) := retry_loop net (payload document_content user_query)
                     (py_range max_retries) (mk_frame None w) in
    (r, io s).

(** ** The controller's submit action (lines 197-224) *)

(** The keys of [st.session_state] the page uses. *)
Record session_state : Type := mk_session {
  document_content : option string;
  summary_result : option json
}.

Definition MAX_CHARS : Z := 150000.

(** [s[:n]] for a bound [n >= 0]. *)
Fixpoint str_prefix (n : Z) (s : string) : string :=
  match s with
  | EmptyString => EmptyString
  | String c s' => if n <=? 0 then EmptyString else String c (str_prefix (n - 1) s')
  end.

Fixpoint group_thousands (rev_digits : list ascii) : list ascii :=
  match rev_digits with
  | a :: b :: c :: ((_ :: _) as more) =>
      a :: b :: c :: ","%char :: group_thousands more
  | _ => rev_digits
  end.

(** [f"{n:,}"] for [n >= 0]. *)
Definition str_int_grouped (n : Z) : string :=
  string_of_list_ascii
    (rev (group_thousands (rev (list_ascii_of_string (str_int n))))).

Definition truncation_warning (full_content : string) : string :=
  "Document content is very large (" ++ str_int_grouped (len full_content)
  ++ " chars). Truncating to the first " ++ str_int_grouped MAX_CHARS
  ++ " characters for processing.".

(** Lines 217-220: the content handed to the client, and the notice shown. *)
Definition truncate_content (full_content : string) : string * list event :=
  if len full_content >? MAX_CHARS then
    (str_prefix MAX_CHARS full_content,
     [EvWarning (truncation_warning full_content)])
  else (full_content, []).

Definition show (ev : event) (w : world) : world :=
  mk_world (posts w) (trace w ++ [ev]).

Definition shows (evs : list event) (w : world) : world :=
  mk_world (posts w) (trace w ++ evs).

(** One run of the main area in which the submit button reports a click,
    with [user_query] in the text input.  Of the page only the notices
    ([st.info], [st.error], [st.warning]) are recorded as events; the
    result is the session with [summary_result] stored. *)
Definition generate_clicked (net : transport) (ss : session_state)
    (user_query : string) (w : world) : res session_state * world :=
  match document_content ss with
  | None =>
      (Ok ss, show (EvInfo "Please upload your document files in the sidebar to begin.") w)
  | Some full_content =>
      if negb (truthy full_content) then
        (Ok ss, show (EvInfo "Please upload your document files in the sidebar to begin.") w)
      else if negb (truthy user_query) then
        (Ok ss, show (EvError "Please enter a question to get a summary.") w)
      else
        let '(passed, notices) := truncate_content full_content in
        match call_gemini_api net passed user_query (shows notices w) with
        | (Ok summary, w') =>
            (Ok (mk_session (document_content ss) (Some summary)), w')
        | (Raise e, w') => (Raise e, w')
        end
  end.

(** ** Observations on traces *)

Definition sleeps (evs : list event) : list Z :=
  omap (fun ev => match ev with EvSleep n => Some n | _ => None end) evs.

Definition post_bodies (evs : list event) : list json :=
  omap (fun ev => match ev with EvPost _ _ data => Some data | _ => None end) evs.

Definition post_event (d q : string) : event :=
  EvPost API_URL headers (payload d q).

(** The world once the POST of an iteration has been sent. *)
Definition posted (d q : string) (w : world) : world :=
  mk_world (S (posts w)) (trace w ++ [post_event d q]).

(** The statuses for which [raise_for_status] raises. *)
Definition is_http_error (s : Z) : Prop := 400 <= s < 600.

(** The events of an attempt that fails and is retried. *)
Definition backoff_round (d q : string) (attempt status : Z) : list event :=
  [post_event d q;
   EvPrint (retry_notice attempt status (2 ^ attempt));
   EvSleep (2 ^ attempt)].

(** ** Shapes of a decoded response body *)

(** The expected shape: the first candidate's first content part carries
    the text [t]. *)
Definition has_answer (body : json) (t : string) : Prop :=
  exists (m c ct p : gmap string json) (cs ps : list json),
    body = JDict m
    /\ m !! "candidates" = Some (JList (JDict c :: cs))
    /\ c !! "content" = Some (JDict ct)
    /\ ct !! "parts" = Some (JList (JDict p :: ps))
    /\ p !! "text" = Some (JStr t).

(** A key of the path [candidates[0].content.parts[0].text] is absent, what
    comes before it on the path being as expected. *)
Inductive missing_key : json -> Prop :=
| missing_candidates (m : gmap string json) :
    m !! "candidates" = None ->
    missing_key (JDict m)
| missing_content (m c : gmap string json) (cs : list json) :
    m !! "candidates" = Some (JList (JDict c :: cs)) ->
    c !! "content" = None ->
    missing_key (JDict m)
| missing_parts (m c ct : gmap string json) (cs : list json) :
    m !! "candidates" = Some (JList (JDict c :: cs)) ->
    c !! "content" = Some (JDict ct) ->
    ct !! "parts" = None ->
    missing_key (JDict m)
| missing_text (m c ct p : gmap string json) (cs ps : list json) :
    m !! "candidates" = Some (JList (JDict c :: cs)) ->
    c !! "content" = Some (JDict ct) ->
    ct !! "parts" = Some (JList (JDict p :: ps)) ->
    p !! "text" = None ->
    missing_key (JDict m).

(** [candidates], or the inner [parts], is present and is the empty list. *)
Inductive empty_list_on_path : json -> Prop :=
| empty_candidates (m : gmap string json) :
    m !! "candidates" = Some (JList []) ->
    empty_list_on_path (JDict m)
| empty_parts (m c ct : gmap string json) (cs : list json) :
    m !! "candidates" = Some (JList (JDict c :: cs)) ->
    c !! "content" = Some (JDict ct) ->
    ct !! "parts" = Some (JList []) ->
    empty_list_on_path (JDict m).

(** ** Sample transports *)

(** The transport that plays [outcomes] in order, then [after] for ever. *)
Definition scripted (outcomes : list post_outcome) (after : post_outcome) : transport :=
  fun n => nth n outcomes after.

Definition http_response (status : Z) (phrase : string) (body : res json) : Response :=
  mk_Response status phrase API_URL body.

Definition answer_body (t : string) : json :=
  JDict {[ "candidates" :=
             JList [JDict {[ "content" :=
                               JDict {[ "parts" := JList [text_part t] ]} ]}] ]}.

Definition unavailable : post_outcome :=
  PostReturns (http_response 503 "Service Unavailable" (Ok (JDict ∅))).

Definition not_found : post_outcome :=
  PostReturns (http_response 404 "Not Found" (Ok (JDict ∅))).

Definition answered (t : string) : post_outcome :=
  PostReturns (http_response 200 "OK" (Ok (answer_body t))).

Definition connection_refused : post_outcome :=
  PostRaises (mk_exn ConnectionError "Connection refused").

Definition fresh : world := mk_world 0 [].

Fixpoint replicate_char (n : nat) (c : ascii) : string :=
  match n with
  | O => EmptyString
  | S n' => String c (replicate_char n' c)
  end.

(** A document of 150,001 characters. *)
Definition long_document : string := replicate_char (Z.to_nat 150001) "x"%char.

(** ** [extract_text_from_file] (lines 26-52) *)

(** [s.split(sep)] for a one-character separator: never the empty list. *)
Fixpoint split_on (sep : ascii) (s : string) : list string :=
  match s with
  | EmptyString => [EmptyString]
  | String c s' =>
      if Ascii.eqb c sep then EmptyString :: split_on sep s'
      else match split_on sep s' with
           | piece :: pieces => String c piece :: pieces
           | [] => [String c EmptyString]
           end
  end.

(** [c.lower()] on the letters A to Z; every other character is kept. *)
Definition lower_char (c : ascii) : ascii :=
  if (65 <=? nat_of_ascii c)%nat && (nat_of_ascii c <=? 90)%nat
  then ascii_of_nat (nat_of_ascii c + 32)
  else c.

Fixpoint lower (s : string) : string :=
  match s with
  | EmptyString => EmptyString
  | String c s' => String (lower_char c) (lower s')
  end.

(** [name.split('.')[-1].lower()] *)
Definition file_extension (name : string) : string :=
  lower (List.last (split_on "."%char name) EmptyString).

(** An uploaded file, by what the function asks of it: its name, what
    [read().decode("utf-8")] evaluates to, and what [PdfReader(BytesIO(read()))]
    gives: an exception, or the pages, each by what its [extract_text()]
    does (a string, [None], or an exception). *)
Record uploaded_file : Type := mk_file {
  name : string;
  read_utf8 : res string;
  read_pdf : res (list (res (option string)))
}.

(** The loop of lines 45-46, from the text gathered so far: the text when
    the loop stops, and the exception that stopped it, if one did. *)
Fixpoint read_pages (pages : list (res (option string))) (text : string)
    : string * option exn :=
  match pages with
  | [] => (text, None)
  | Ok extracted :: rest => read_pages rest (text ++ default EmptyString extracted)
  | Raise e :: _ => (text, Some e)
  end.

(** The text returned and the [st.error] notices shown. *)
Definition extract_text_from_file (PDF_READER_AVAILABLE : bool) (f : uploaded_file)
    : string * list event :=
  if String.eqb (file_extension (name f)) "txt" then
    match read_utf8 f with
    | Ok text => (text, [])
    | Raise e => (EmptyString, [EvError ("Error reading TXT file: " ++ exn_msg e)])
    end
  else if String.eqb (file_extension (name f)) "pdf" then
    if PDF_READER_AVAILABLE then
      match read_pdf f with
      | Ok pages =>
          match read_pages pages EmptyString with
          | (text, None) => (text, [])
          | (text, Some e) =>
              (text, [EvError ("Error processing PDF file: " ++ exn_msg e)])
          end
      | Raise e =>
          (EmptyString, [EvError ("Error processing PDF file: " ++ exn_msg e)])
      end
    else (EmptyString, [EvError "Cannot process PDF. PyPDF2 is not installed."])
  else (EmptyString, []).

(** ** The sidebar (lines 173-194) and the result area (lines 227-234) *)

(** What the page renders, as far as the model follows it: the notices,
    [st.success], [st.caption] and [st.code]. *)
Inductive widget : Type :=
| Notice (ev : event)
| Success (msg : string)
| Caption (msg : string)
| Code (body : string).

(** The f-string of line 180. *)
Definition file_chunk (file_name text : string) : string :=
  "--- START OF FILE: " ++ file_name ++ " ---" ++ nl ++ text ++ nl
  ++ "--- END OF FILE: " ++ file_name ++ " ---" ++ nl ++ nl.

(** [sep.join(parts)] *)
Fixpoint py_join (sep : string) (parts : list string) : string :=
  match parts with
  | [] => EmptyString
  | [part] => part
  | part :: rest => part ++ sep ++ py_join sep rest
  end.

(** The loop of lines 177-180, from the chunks and notices gathered so far. *)
Fixpoint process_files (PDF_READER_AVAILABLE : bool) (files : list uploaded_file)
    (all_text_chunks : list string) (shown : list widget)
    : list string * list widget :=
  match files with
  | [] => (all_text_chunks, shown)
  | file :: rest =>
      let '(text, errors) := extract_text_from_file PDF_READER_AVAILABLE file in
      process_files PDF_READER_AVAILABLE rest
        (if truthy text then all_text_chunks ++ [file_chunk (name file) text]
         else all_text_chunks)
        (shown ++ map Notice errors)
  end.

Definition success_message (uploaded_files : list uploaded_file) : string :=
  "Successfully processed " ++ str_int (Z.of_nat (length uploaded_files))
  ++ " file(s).".

(** Lines 173-187: the session after the upload step, and what it rendered. *)
Definition process_uploads (PDF_READER_AVAILABLE : bool)
    (uploaded_files : list uploaded_file) (ss : session_state)
    : session_state * list widget :=
  match uploaded_files with
  | [] => (mk_session None (summary_result ss), [])
  | _ :: _ =>
      let '(all_text_chunks, shown) :=
        process_files PDF_READER_AVAILABLE uploaded_files [] [] in
      (mk_session (Some (py_join nl all_text_chunks)) (summary_result ss),
       (shown ++ [Success (success_message uploaded_files)])%list)
  end.

(** The argument of [st.code] on line 194. *)
Definition preview_text (content : string) : string :=
  str_prefix 1000 content ++ (if len content >? 1000 then "..." else EmptyString).

(** Lines 191-194. *)
Definition content_preview (ss : session_state) : list widget :=
  match document_content ss with
  | Some content =>
      if truthy content then
        [Caption ("Total characters: " ++ str_int_grouped (len content));
         Code (preview_text content)]
      else []
  | None => []
  end.

(** A click on "Clear Result" (lines 232-233); the button is there only
    while [summary_result] is in the session. *)
Definition clear_clicked (ss : session_state) : session_state :=
  mk_session (document_content ss) None.

(** ** Observations used by the general properties *)

(** The events of consecutive retried attempts, from attempt [attempt] on,
    by the status shown in each notice. *)
Fixpoint rounds (d q : string) (attempt : Z) (statuses : list Z) : list event :=
  match statuses with
  | [] => []
  | status :: more =>
      (backoff_round d q attempt status ++ rounds d q (attempt + 1) more)%list
  end.

(** The response body has the expected path, ending in the value [v]. *)
Definition answer_value (body v : json) : Prop :=
  exists (m c ct p : gmap string json) (cs ps : list json),
    body = JDict m
    /\ m !! "candidates" = Some (JList (JDict c :: cs))
    /\ c !! "content" = Some (JDict ct)
    /\ ct !! "parts" = Some (JList (JDict p :: ps))
    /\ p !! "text" = Some v.

Definition is_dict (v : json) : bool :=
  match v with
  | JDict _ => true
  | _ => false
  end.

(** ** [ResponseSignal] (src/models/enums/ResponseEnum.py) *)

Inductive ResponseSignal : Type :=
| FILE_VALIDATED_SUCCESS
| FILE_TYPE_NOT_SUPPORTED
| FILE_SIZE_EXCEEDE
| FILE_UPLOAD_SUCCESS
| FILE_UPLOAD_FAILED
| PROCESSING_SUCCESS
| PROCESSING_FAILED
| NO_FILES_ERROR
| FILE_ID_ERROR.

(** [member.value] *)
Definition signal_value (s : ResponseSignal) : string :=
  match s with
  | FILE_VALIDATED_SUCCESS => "file_validated_successfully"
  | FILE_TYPE_NOT_SUPPORTED => "file_type_not_supported"
  | FILE_SIZE_EXCEEDE => "file_size_exceeded"
  | FILE_UPLOAD_SUCCESS => "file_upload_success"
  | FILE_UPLOAD_FAILED => "file_upload_falied"
  | PROCESSING_SUCCESS => "processing success"
  | PROCESSING_FAILED => "processing failed"
  | NO_FILES_ERROR => "not_found_files"
  | FILE_ID_ERROR => "no_file_found_with_this_id"
  end.

(** * Properties *)

(** ** Strings and statuses *)

Lemma truthy_true_iff (s : string) : truthy s = true <-> s <> EmptyString.
Proof. destruct s; simpl; split; intros; congruence. Qed.

Lemma truthy_app_r (a b : string) : truthy b = true -> truthy (a ++ b) = true.
Proof. destruct a; simpl; auto. Qed.

Lemma py_range_max_retries : py_range max_retries = [0; 1; 2; 3; 4].
Proof. reflexivity. Qed.

Lemma py_in_retryable (s : Z) :
  py_in s retryable_statuses = true <-> s = 429 \/ s = 500 \/ s = 503.
Proof.
  unfold py_in, retryable_statuses; simpl.
  rewrite orb_false_r, !orb_true_iff, !Z.eqb_eq. intuition discriminate.
Qed.

Lemma http_error_msg_truthy (r : Response) :
  is_http_error (status_code r) -> truthy (http_error_msg r) = true.
Proof.
  unfold is_http_error, http_error_msg; intros H.
  destruct (Z.ltb_spec (status_code r) 500).
  - replace (400 <=? status_code r) with true by (symmetry; apply Z.leb_le; lia).
    simpl. apply truthy_app_r. reflexivity.
  - replace (500 <=? status_code r) with true by (symmetry; apply Z.leb_le; lia).
    replace (status_code r <? 600) with true by (symmetry; apply Z.ltb_lt; lia).
    rewrite andb_false_r. simpl. apply truthy_app_r. reflexivity.
Qed.

Lemma raise_for_status_error (r : Response) :
  is_http_error (status_code r) ->
  raise_for_status r = Raise (mk_exn HTTPError (http_error_msg r)).
Proof.
  intros H. unfold raise_for_status. now rewrite http_error_msg_truthy.
Qed.

Lemma raise_for_status_200 (r : Response) :
  status_code r = 200 -> raise_for_status r = Ok tt.
Proof.
  intros H. unfold raise_for_status, http_error_msg. rewrite H. reflexivity.
Qed.

Lemma retryable_is_http_error (s : Z) :
  py_in s retryable_statuses = true -> is_http_error s.
Proof.
  rewrite py_in_retryable. unfold is_http_error. lia.
Qed.

(** ** One iteration of the loop *)

Section Iteration.
Variable net : transport.
Variables d q : string.
Variable attempt : Z.
Variable bound : option Response.
Variable w : world.

Lemma attempt_body_post_raises (e : exn) :
  net (posts w) = PostRaises e ->
  attempt_body net (payload d q) attempt (mk_frame bound w)
  = on_exception attempt e (mk_frame bound (posted d q w)).
Proof.
  intros H. unfold attempt_body, try_except, bind, requests_post. simpl.
  rewrite H. reflexivity.
Qed.

Lemma attempt_body_post_returns (r : Response) :
  net (posts w) = PostReturns r ->
  attempt_body net (payload d q) attempt (mk_frame bound w)
  = match rbind (raise_for_status r)
            (fun _ => rbind (json_body r) extract_text) with
    | Ok v => (Ok (Return v), mk_frame (Some r) (posted d q w))
    | Raise e => on_exception attempt e (mk_frame (Some r) (posted d q w))
    end.
Proof.
  intros H.
  unfold attempt_body, try_except, bind, requests_post, assign_response, lift.
  simpl. rewrite H.
  destruct (raise_for_status r) as [[]|e]; simpl; [|reflexivity].
  destruct (json_body r) as [body|e]; simpl; [|reflexivity].
  destruct (extract_text body) as [v|e]; reflexivity.
Qed.
End Iteration.

Section Handler.
Variable attempt : Z.
Variable e : exn.
Variable w : world.

Lemma on_request_exception_retry (r : Response) :
  attempt < max_retries - 1 ->
  py_in (status_code r) retryable_statuses = true ->
  on_request_exception attempt e (mk_frame (Some r) w)
  = (Ok Continue,
     mk_frame (Some r)
       (shows [EvPrint (retry_notice attempt (status_code r) (2 ^ attempt));
               EvSleep (2 ^ attempt)] w)).
Proof.
  intros Ha Hs. unfold on_request_exception.
  apply Z.ltb_lt in Ha. rewrite Ha.
  unfold bind, read_response, emit, ret, shows. simpl.
  rewrite Hs. simpl. now rewrite <- app_assoc.
Qed.

Lemma on_request_exception_terminal (r : Response) :
  py_in (status_code r) retryable_statuses = false ->
  on_request_exception attempt e (mk_frame (Some r) w)
  = (Ok (Return (JStr (api_error_message attempt e))), mk_frame (Some r) w).
Proof.
  intros Hs. unfold on_request_exception, bind, read_response, ret.
  destruct (attempt <? max_retries - 1); [|reflexivity].
  simpl. now rewrite Hs.
Qed.

Lemma on_request_exception_last (bound : option Response) :
  max_retries - 1 <= attempt ->
  on_request_exception attempt e (mk_frame bound w)
  = (Ok (Return (JStr (api_error_message attempt e))), mk_frame bound w).
Proof.
  intros Ha. unfold on_request_exception.
  apply Z.ltb_ge in Ha. now rewrite Ha.
Qed.

Lemma on_request_exception_unbound :
  attempt < max_retries - 1 ->
  on_request_exception attempt e (mk_frame None w)
  = (Raise (mk_exn UnboundLocalError
       "cannot access local variable 'response' where it is not associated with a value"),
     mk_frame None w).
Proof.
  intros Ha. unfold on_request_exception.
  apply Z.ltb_lt in Ha. now rewrite Ha.
Qed.
End Handler.

(** ** The loop, one attempt at a time *)

Section Loop.
Variable net : transport.
Variables d q : string.
Variable attempt : Z.
Variable rest : list Z.
Variable bound : option Response.
Variable w : world.

Lemma retry_loop_unfold :
  retry_loop net (payload d q) (attempt :: rest) (mk_frame bound w)
  = match attempt_body net (payload d q) attempt (mk_frame bound w) with
    | (Ok Continue, s) => retry_loop net (payload d q) rest s
    | (Ok (Return v), s) => (Ok v, s)
    | (Raise e, s) => (Raise e, s)
    end.
Proof.
  simpl. unfold bind.
  destruct (attempt_body net (payload d q) attempt (mk_frame bound w)) as [[[|v]|e] s];
    reflexivity.
Qed.

(** A retryable HTTP error before the last attempt: notice, sleep, go on. *)
Lemma loop_http_retry (r : Response) :
  net (posts w) = PostReturns r ->
  py_in (status_code r) retryable_statuses = true ->
  attempt < max_retries - 1 ->
  retry_loop net (payload d q) (attempt :: rest) (mk_frame bound w)
  = retry_loop net (payload d q) rest
      (mk_frame (Some r)
         (mk_world (S (posts w))
            (trace w ++ backoff_round d q attempt (status_code r)))).
Proof.
  intros Hnet Hs Ha. rewrite retry_loop_unfold.
  rewrite (attempt_body_post_returns _ _ _ _ _ _ _ Hnet).
  rewrite raise_for_status_error by now apply retryable_is_http_error.
  simpl. unfold on_exception. simpl.
  rewrite on_request_exception_retry by assumption.
  unfold shows, posted, backoff_round. simpl. now rewrite <- app_assoc.
Qed.

(** An HTTP error that is not retryable, or that comes on the last
    attempt: the call ends with the API error message. *)
Lemma loop_http_terminal (r : Response) :
  net (posts w) = PostReturns r ->
  is_http_error (status_code r) ->
  py_in (status_code r) retryable_statuses = false \/ max_retries - 1 <= attempt ->
  retry_loop net (payload d q) (attempt :: rest) (mk_frame bound w)
  = (Ok (JStr (api_error_message attempt (mk_exn HTTPError (http_error_msg r)))),
     mk_frame (Some r) (posted d q w)).
Proof.
  intros Hnet Herr Hend. rewrite retry_loop_unfold.
  rewrite (attempt_body_post_returns _ _ _ _ _ _ _ Hnet).
  rewrite raise_for_status_error by assumption.
  simpl. unfold on_exception. simpl. destruct Hend as [Hs|Ha].
  - now rewrite on_request_exception_terminal.
  - now rewrite on_request_exception_last.
Qed.

(** A response that passes [raise_for_status] and decodes: whatever the
    extraction gives ends the call. *)
Lemma loop_decoded (r : Response) (body : json) :
  net (posts w) = PostReturns r ->
  raise_for_status r = Ok tt ->
  json_body r = Ok body ->
  retry_loop net (payload d q) (attempt :: rest) (mk_frame bound w)
  = (match extract_text body with
     | Ok v => Ok v
     | Raise e =>
         if is_RequestException e then Ok (JStr (api_error_message attempt e))
         else Ok (JStr (unexpected_error_message e))
     end,
     mk_frame (Some r) (posted d q w)).
Proof.
  intros Hnet Hst Hbody. rewrite retry_loop_unfold.
  rewrite (attempt_body_post_returns _ _ _ _ _ _ _ Hnet).
  rewrite Hst, Hbody. simpl.
  destruct (extract_text body) as [v|e]; [reflexivity|].
  unfold on_exception. destruct (is_RequestException e); [|reflexivity].
  rewrite on_request_exception_terminal; [reflexivity|].
  unfold raise_for_status in Hst.
  destruct (truthy (http_error_msg r)) eqn:Ht; [discriminate|].
  destruct (py_in (status_code r) retryable_statuses) eqn:Hs; [|reflexivity].
  apply retryable_is_http_error, http_error_msg_truthy in Hs. congruence.
Qed.

(** The POST itself raises a [RequestException] while [response] is bound. *)
Lemma loop_transport_failure (prev : Response) (e : exn) :
  bound = Some prev ->
  net (posts w) = PostRaises e ->
  is_RequestException e = true ->
  retry_loop net (payload d q) (attempt :: rest) (mk_frame bound w)
  = if (attempt <? max_retries - 1)
       && py_in (status_code prev) retryable_statuses
    then retry_loop net (payload d q) rest
           (mk_frame (Some prev)
              (mk_world (S (posts w))
                 (trace w ++ backoff_round d q attempt (status_code prev))))
    else (Ok (JStr (api_error_message attempt e)),
          mk_frame (Some prev) (posted d q w)).
Proof.
  intros Hb Hnet He. rewrite retry_loop_unfold. subst bound.
  rewrite (attempt_body_post_raises _ _ _ _ _ _ _ Hnet).
  unfold on_exception. rewrite He.
  destruct (Z.ltb_spec attempt (max_retries - 1)) as [Ha|Ha].
  - destruct (py_in (status_code prev) retryable_statuses) eqn:Hs; simpl.
    + rewrite on_request_exception_retry by assumption.
      unfold shows, posted, backoff_round. simpl. now rewrite <- app_assoc.
    + now rewrite on_request_exception_terminal.
  - simpl. now rewrite on_request_exception_last.
Qed.

(** The POST itself raises a [RequestException] while [response] is
    still unbound: the handler's own read of [response] raises. *)
Lemma loop_transport_failure_unbound (e : exn) :
  bound = None ->
  net (posts w) = PostRaises e ->
  is_RequestException e = true ->
  attempt < max_retries - 1 ->
  retry_loop net (payload d q) (attempt :: rest) (mk_frame bound w)
  = (Raise (mk_exn UnboundLocalError
       "cannot access local variable 'response' where it is not associated with a value"),
     mk_frame None (posted d q w)).
Proof.
  intros Hb Hnet He Ha. rewrite retry_loop_unfold. subst bound.
  rewrite (attempt_body_post_raises _ _ _ _ _ _ _ Hnet).
  unfold on_exception. rewrite He.
  now rewrite on_request_exception_unbound.
Qed.
End Loop.

(** ** The whole call *)

Lemma call_gemini_api_dispatch (net : transport) (d q : string) (w : world) :
  d <> EmptyString -> q <> EmptyString ->
  call_gemini_api net d q w
  = (fst (retry_loop net (payload d q) [0; 1; 2; 3; 4] (mk_frame None w)),
     io (snd (retry_loop net (payload d q) [0; 1; 2; 3; 4] (mk_frame None w)))).
Proof.
  intros Hd Hq. unfold call_gemini_api.
  apply truthy_true_iff in Hd, Hq. rewrite Hd, Hq. simpl negb. simpl orb.
  rewrite py_range_max_retries.
  now destruct (retry_loop net (payload d q) [0; 1; 2; 3; 4] (mk_frame None w)).
Qed.

Lemma extract_text_answer (body : json) (t : string) :
  has_answer body t -> extract_text body = Ok (JStr t).
Proof.
  intros (m & c & ct & p & cs & ps & -> & Hm & Hc & Hct & Hp).
  unfold extract_text. simpl. rewrite Hm. simpl. rewrite Hc. simpl.
  rewrite Hct. simpl. now rewrite Hp.
Qed.

Lemma extract_text_missing_key (body : json) :
  missing_key body -> extract_text body = Ok (JStr "No response generated.").
Proof.
  intros H. unfold extract_text.
  destruct H as [m Hm|m c cs Hm Hc|m c ct cs Hm Hc Hct|m c ct p cs ps Hm Hc Hct Hp];
    simpl; rewrite Hm; simpl.
  - reflexivity.
  - rewrite Hc. reflexivity.
  - rewrite Hc. simpl. rewrite Hct. reflexivity.
  - rewrite Hc. simpl. rewrite Hct. simpl. rewrite Hp. reflexivity.
Qed.

Lemma extract_text_empty_list (body : json) :
  empty_list_on_path body ->
  extract_text body = Raise (mk_exn IndexError "list index out of range").
Proof.
  intros H. unfold extract_text.
  destruct H as [m Hm|m c ct cs Hm Hc Hct]; simpl; rewrite Hm; simpl.
  - reflexivity.
  - rewrite Hc. simpl. rewrite Hct. reflexivity.
Qed.

(** C3. When [document_content] or [user_query] is empty, [call_gemini_api]
    returns the guard message at once and leaves the world as it found it:
    no POST is sent and nothing sleeps, whatever the transport. *)
Theorem guard_clause_short_circuits
    (net : transport) (d q : string) (w : world) :
  d = EmptyString \/ q = EmptyString ->
  call_gemini_api net d q w
  = (Ok (JStr "Please upload documents and enter a question."), w).
Proof.
  intros [-> | ->]; unfold call_gemini_api; simpl.
  - reflexivity.
  - now rewrite orb_true_r.
Qed.

Lemma guard_clause_short_circuits_witness :
  call_gemini_api (scripted [] (answered "never asked")) "some document" EmptyString fresh
  = (Ok (JStr "Please upload documents and enter a question."), fresh).
Proof.
  apply guard_clause_short_circuits. right. reflexivity.
Defined.

(** C5. A first attempt answered with an HTTP error status outside
    429, 500 and 503 (404 for one) ends the call: the result is
    "An API error occurred after 1 attempts: " followed by the text of the
    HTTP error, and the only event is that one POST; there is no retry and
    no sleep. *)
Theorem non_retryable_status_ends_call
    (net : transport) (d q : string) (w : world) (r : Response) :
  d <> EmptyString -> q <> EmptyString ->
  net (posts w) = PostReturns r ->
  is_http_error (status_code r) ->
  py_in (status_code r) retryable_statuses = false ->
  call_gemini_api net d q w
  = (Ok (JStr ("An API error occurred after 1 attempts: " ++ http_error_msg r)),
     mk_world (S (posts w)) (trace w ++ [post_event d q])).
Proof.
  intros Hd Hq Hnet Herr Hs. rewrite call_gemini_api_dispatch by assumption.
  rewrite (loop_http_terminal _ _ _ _ _ _ _ _ Hnet Herr (or_introl Hs)).
  reflexivity.
Qed.

Lemma non_retryable_status_ends_call_witness :
  call_gemini_api (scripted [not_found] (answered "too late")) "doc" "question" fresh
  = (Ok (JStr ("An API error occurred after 1 attempts: "
               ++ "404 Client Error: Not Found for url: " ++ API_URL)),
     mk_world 1 [post_event "doc" "question"]).
Proof.
  apply (non_retryable_status_ends_call
           (scripted [not_found] (answered "too late")) "doc" "question" fresh
           (http_response 404 "Not Found" (Ok (JDict ∅)))).
  - discriminate.
  - discriminate.
  - reflexivity.
  - unfold is_http_error. simpl. lia.
  - reflexivity.
Defined.

(** C6. When the first attempt is answered with HTTP 200 and a body in
    which [candidates] is absent, or in which a later key of the path
    [candidates[0].content.parts[0].text] is absent, [call_gemini_api]
    returns the placeholder "No response generated." as its answer, after
    that single POST; nothing is raised. *)
Theorem missing_key_gives_placeholder
    (net : transport) (d q : string) (w : world) (r : Response) (body : json) :
  d <> EmptyString -> q <> EmptyString ->
  net (posts w) = PostReturns r ->
  status_code r = 200 ->
  json_body r = Ok body ->
  missing_key body ->
  call_gemini_api net d q w
  = (Ok (JStr "No response generated."),
     mk_world (S (posts w)) (trace w ++ [post_event d q])).
Proof.
  intros Hd Hq Hnet Hst Hbody Hmiss. rewrite call_gemini_api_dispatch by assumption.
  rewrite (loop_decoded _ _ _ _ _ _ _ _ _ Hnet (raise_for_status_200 _ Hst) Hbody).
  rewrite (extract_text_missing_key _ Hmiss). reflexivity.
Qed.

Lemma missing_key_gives_placeholder_witness :
  missing_key (JDict {[ "promptFeedback" := JDict ∅ ]})
  /\ call_gemini_api
       (scripted [] (PostReturns (http_response 200 "OK"
                                    (Ok (JDict {[ "promptFeedback" := JDict ∅ ]})))))
       "doc" "question" fresh
     = (Ok (JStr "No response generated."),
        mk_world 1 [post_event "doc" "question"]).
Proof.
  assert (Hmiss : missing_key (JDict {[ "promptFeedback" := JDict ∅ ]})).
  { apply missing_candidates. reflexivity. }
  split; [exact Hmiss|].
  apply (missing_key_gives_placeholder _ "doc" "question" fresh
           (http_response 200 "OK" (Ok (JDict {[ "promptFeedback" := JDict ∅ ]})))
           (JDict {[ "promptFeedback" := JDict ∅ ]})).
  - discriminate.
  - discriminate.
  - reflexivity.
  - reflexivity.
  - reflexivity.
  - exact Hmiss.
Defined.

(** C10. When the first attempt is answered with HTTP 200 and a body in
    which [candidates], or the inner [parts], is present and is the empty
    list, taking element 0 raises [IndexError]; the generic handler turns it
    into the result "An unexpected error occurred: list index out of range",
    which is not the placeholder, and the call ends after that single POST:
    no retry, no sleep. *)
Theorem empty_list_gives_unexpected_error
    (net : transport) (d q : string) (w : world) (r : Response) (body : json) :
  d <> EmptyString -> q <> EmptyString ->
  net (posts w) = PostReturns r ->
  status_code r = 200 ->
  json_body r = Ok body ->
  empty_list_on_path body ->
  call_gemini_api net d q w
  = (Ok (JStr ("An unexpected error occurred: " ++ "list index out of range")),
     mk_world (S (posts w)) (trace w ++ [post_event d q]))
  /\ fst (call_gemini_api net d q w) <> Ok (JStr "No response generated.").
Proof.
  intros Hd Hq Hnet Hst Hbody Hempty.
  assert (Hcall : call_gemini_api net d q w
    = (Ok (JStr ("An unexpected error occurred: " ++ "list index out of range")),
       mk_world (S (posts w)) (trace w ++ [post_event d q]))).
  { rewrite call_gemini_api_dispatch by assumption.
    rewrite (loop_decoded _ _ _ _ _ _ _ _ _ Hnet (raise_for_status_200 _ Hst) Hbody).
    rewrite (extract_text_empty_list _ Hempty). reflexivity. }
  split; [exact Hcall|]. rewrite Hcall. simpl. discriminate.
Qed.

Lemma empty_list_gives_unexpected_error_witness :
  call_gemini_api
    (scripted [] (PostReturns (http_response 200 "OK"
                                 (Ok (JDict {[ "candidates" := JList [] ]})))))
    "doc" "question" fresh
  = (Ok (JStr "An unexpected error occurred: list index out of range"),
     mk_world 1 [post_event "doc" "question"])
  /\ fst (call_gemini_api
            (scripted [] (PostReturns (http_response 200 "OK"
                                         (Ok (JDict {[ "candidates" := JList [] ]})))))
            "doc" "question" fresh)
     <> Ok (JStr "No response generated.").
Proof.
  apply (empty_list_gives_unexpected_error _ "doc" "question" fresh
           (http_response 200 "OK" (Ok (JDict {[ "candidates" := JList [] ]})))
           (JDict {[ "candidates" := JList [] ]})).
  - discriminate.
  - discriminate.
  - reflexivity.
  - reflexivity.
  - reflexivity.
  - apply empty_candidates. reflexivity.
Defined.

(** Four retryable HTTP errors in a row lead to the fifth attempt, with
    [response] bound to the fourth of them. *)
Lemma four_backoffs (net : transport) (d q : string) (w : world)
    (r0 r1 r2 r3 : Response) :
  net (posts w) = PostReturns r0 ->
  net (S (posts w)) = PostReturns r1 ->
  net (S (S (posts w))) = PostReturns r2 ->
  net (S (S (S (posts w)))) = PostReturns r3 ->
  py_in (status_code r0) retryable_statuses = true ->
  py_in (status_code r1) retryable_statuses = true ->
  py_in (status_code r2) retryable_statuses = true ->
  py_in (status_code r3) retryable_statuses = true ->
  retry_loop net (payload d q) [0; 1; 2; 3; 4] (mk_frame None w)
  = retry_loop net (payload d q) [4]
      (mk_frame (Some r3)
         (mk_world (S (S (S (S (posts w)))))
            (trace w ++ backoff_round d q 0 (status_code r0)
                     ++ backoff_round d q 1 (status_code r1)
                     ++ backoff_round d q 2 (status_code r2)
                     ++ backoff_round d q 3 (status_code r3)))).
Proof.
  intros H0 H1 H2 H3 S0 S1 S2 S3.
  rewrite (loop_http_retry _ _ _ _ _ _ _ r0) by (simpl; done).
  rewrite (loop_http_retry _ _ _ _ _ _ _ r1) by (simpl; done).
  rewrite (loop_http_retry _ _ _ _ _ _ _ r2) by (simpl; done).
  rewrite (loop_http_retry _ _ _ _ _ _ _ r3) by (simpl; done).
  cbn [posts trace]. now rewrite <- !app_assoc.
Qed.

(** C1. If the first four attempts are answered with HTTP 503 and the
    fifth with HTTP 200 and a body of the expected shape, [call_gemini_api]
    returns the text of that body.  It sends five POSTs; between them it
    sleeps four times, for 1, 2, 4 and 8 seconds in that order ([2 ** attempt]
    for attempts 0 to 3), and the successful POST is the last event: nothing
    sleeps after it. *)
Theorem four_failures_then_success
    (net : transport) (d q : string) (w : world)
    (r5 : Response) (body : json) (t : string) :
  d <> EmptyString -> q <> EmptyString ->
  (forall i : nat, (i < 4)%nat ->
     exists r, net (posts w + i)%nat = PostReturns r /\ status_code r = 503) ->
  net (posts w + 4)%nat = PostReturns r5 ->
  status_code r5 = 200 ->
  json_body r5 = Ok body ->
  has_answer body t ->
  let evs := (backoff_round d q 0 503 ++ backoff_round d q 1 503
              ++ backoff_round d q 2 503 ++ backoff_round d q 3 503
              ++ [post_event d q])%list in
  call_gemini_api net d q w
  = (Ok (JStr t), mk_world (posts w + 5) (trace w ++ evs))
  /\ sleeps evs = [1; 2; 4; 8]
  /\ length (post_bodies evs) = 5%nat
  /\ last evs = Some (post_event d q).
Proof.
  intros Hd Hq H503 H5 Hst Hbody Hans evs.
  destruct (H503 0%nat) as (r0 & H0 & S0); [lia|].
  destruct (H503 1%nat) as (r1 & H1 & S1); [lia|].
  destruct (H503 2%nat) as (r2 & H2 & S2); [lia|].
  destruct (H503 3%nat) as (r3 & H3 & S3); [lia|].
  replace (posts w + 0)%nat with (posts w) in H0 by lia.
  replace (posts w + 1)%nat with (S (posts w)) in H1 by lia.
  replace (posts w + 2)%nat with (S (S (posts w))) in H2 by lia.
  replace (posts w + 3)%nat with (S (S (S (posts w)))) in H3 by lia.
  replace (posts w + 4)%nat with (S (S (S (S (posts w))))) in H5 by lia.
  split; [|repeat split; reflexivity].
  rewrite call_gemini_api_dispatch by assumption.
  rewrite (four_backoffs net d q w r0 r1 r2 r3) by
    (try assumption; apply py_in_retryable; auto).
  rewrite (loop_decoded _ _ _ _ _ _ _ r5 body) by
    (try assumption; now apply raise_for_status_200).
  rewrite (extract_text_answer _ _ Hans). rewrite S0, S1, S2, S3.
  unfold posted, evs. cbn [fst snd io posts trace].
  f_equal. f_equal; [lia|]. now rewrite <- !app_assoc.
Qed.

Lemma four_failures_then_success_witness :
  call_gemini_api
    (scripted [unavailable; unavailable; unavailable; unavailable]
       (answered "The report covers 2023."))
    "doc" "question" fresh
  = (Ok (JStr "The report covers 2023."),
     mk_world 5
       (backoff_round "doc" "question" 0 503 ++ backoff_round "doc" "question" 1 503
        ++ backoff_round "doc" "question" 2 503 ++ backoff_round "doc" "question" 3 503
        ++ [post_event "doc" "question"])%list).
Proof.
  apply (four_failures_then_success
           (scripted [unavailable; unavailable; unavailable; unavailable]
              (answered "The report covers 2023."))
           "doc" "question" fresh
           (http_response 200 "OK" (Ok (answer_body "The report covers 2023.")))
           (answer_body "The report covers 2023.") "The report covers 2023.").
  - discriminate.
  - discriminate.
  - intros i Hi. exists (http_response 503 "Service Unavailable" (Ok (JDict ∅))).
    destruct i as [|[|[|[|i]]]]; try (split; reflexivity). simpl in Hi. lia.
  - reflexivity.
  - reflexivity.
  - reflexivity.
  - unfold has_answer, answer_body, text_part. do 4 eexists. exists [], [].
    repeat split.
Defined.

Lemma api_error_message_fifth (e : exn) :
  api_error_message 4 e = "An API error occurred after 5 attempts: " ++ exn_msg e.
Proof. reflexivity. Qed.

(** C2, as the specification states it, fails: with HTTP 503 on every
    attempt the result is not the exhausted-retries message. *)
Lemma all_unavailable_is_not_exhausted_message :
  ~ (posts (snd (call_gemini_api (scripted [] unavailable) "doc" "question" fresh)) = 5%nat
     /\ fst (call_gemini_api (scripted [] unavailable) "doc" "question" fresh)
        = Ok (JStr "Failed to get a response from the API after multiple retries.")).
Proof.
  intros [_ H]. vm_compute in H. discriminate H.
Qed.

(** C2, amended. If all five attempts are answered with HTTP 503,
    [call_gemini_api] sends exactly five POSTs, sleeping 1, 2, 4 and 8
    seconds between them, and the fifth failure ends the call in the first
    [except] clause: the result is "An API error occurred after 5 attempts: "
    followed by the text of the fifth HTTP error, not the exhausted-retries
    message of line 110. *)
Theorem five_failures_end_with_api_error
    (net : transport) (d q : string) (w : world) (r5 : Response) :
  d <> EmptyString -> q <> EmptyString ->
  (forall i : nat, (i < 4)%nat ->
     exists r, net (posts w + i)%nat = PostReturns r /\ status_code r = 503) ->
  net (posts w + 4)%nat = PostReturns r5 ->
  status_code r5 = 503 ->
  let evs := (backoff_round d q 0 503 ++ backoff_round d q 1 503
              ++ backoff_round d q 2 503 ++ backoff_round d q 3 503
              ++ [post_event d q])%list in
  call_gemini_api net d q w
  = (Ok (JStr ("An API error occurred after 5 attempts: " ++ http_error_msg r5)),
     mk_world (posts w + 5) (trace w ++ evs))
  /\ sleeps evs = [1; 2; 4; 8]
  /\ length (post_bodies evs) = 5%nat
  /\ fst (call_gemini_api net d q w) <> Ok (JStr exhausted_message).
Proof.
  intros Hd Hq H503 H5 S5 evs.
  destruct (H503 0%nat) as (r0 & H0 & S0); [lia|].
  destruct (H503 1%nat) as (r1 & H1 & S1); [lia|].
  destruct (H503 2%nat) as (r2 & H2 & S2); [lia|].
  destruct (H503 3%nat) as (r3 & H3 & S3); [lia|].
  replace (posts w + 0)%nat with (posts w) in H0 by lia.
  replace (posts w + 1)%nat with (S (posts w)) in H1 by lia.
  replace (posts w + 2)%nat with (S (S (posts w))) in H2 by lia.
  replace (posts w + 3)%nat with (S (S (S (posts w)))) in H3 by lia.
  replace (posts w + 4)%nat with (S (S (S (S (posts w))))) in H5 by lia.
  assert (Hcall : call_gemini_api net d q w
    = (Ok (JStr ("An API error occurred after 5 attempts: " ++ http_error_msg r5)),
       mk_world (posts w + 5) (trace w ++ evs))).
  { rewrite call_gemini_api_dispatch by assumption.
    rewrite (four_backoffs net d q w r0 r1 r2 r3) by
      (try assumption; apply py_in_retryable; auto).
    rewrite (loop_http_terminal _ _ _ _ _ _ _ r5); try assumption.
    - rewrite api_error_message_fifth, S0, S1, S2, S3.
      unfold posted, evs. cbn [fst snd io posts trace exn_msg].
      f_equal. f_equal; [lia|]. now rewrite <- !app_assoc.
    - unfold is_http_error. rewrite S5. simpl. lia.
    - right. reflexivity. }
  split; [exact Hcall|]. split; [reflexivity|]. split; [reflexivity|].
  rewrite Hcall. simpl. discriminate.
Qed.

Lemma five_failures_end_with_api_error_witness :
  call_gemini_api (scripted [] unavailable) "doc" "question" fresh
  = (Ok (JStr ("An API error occurred after 5 attempts: "
               ++ "503 Server Error: Service Unavailable for url: " ++ API_URL)),
     mk_world 5
       (backoff_round "doc" "question" 0 503 ++ backoff_round "doc" "question" 1 503
        ++ backoff_round "doc" "question" 2 503 ++ backoff_round "doc" "question" 3 503
        ++ [post_event "doc" "question"])%list).
Proof.
  apply (five_failures_end_with_api_error
           (scripted [] unavailable) "doc" "question" fresh
           (http_response 503 "Service Unavailable" (Ok (JDict ∅)))).
  - discriminate.
  - discriminate.
  - intros i Hi. exists (http_response 503 "Service Unavailable" (Ok (JDict ∅))).
    destruct i as [|[|[|[|i]]]]; split; reflexivity.
  - reflexivity.
  - reflexivity.
Defined.

(** Whenever the first POST of a call raises a [RequestException], the
    handler reads the unbound local [response] and the call raises. *)
Lemma first_post_failure_escapes
    (net : transport) (d q : string) (w : world) (e : exn) :
  d <> EmptyString -> q <> EmptyString ->
  net (posts w) = PostRaises e ->
  is_RequestException e = true ->
  exists e', exn_cls e' = UnboundLocalError
    /\ call_gemini_api net d q w = (Raise e', posted d q w).
Proof.
  intros Hd Hq Hnet He. eexists. split; [|
    rewrite call_gemini_api_dispatch by assumption;
    rewrite (loop_transport_failure_unbound _ _ _ _ _ _ _ e eq_refl Hnet He);
    [reflexivity | reflexivity] ].
  reflexivity.
Qed.

(** C4 does not hold of the code.  With a connection failure on the first
    attempt, the first [except] clause evaluates [response.status_code]
    while [response] is unbound; the [UnboundLocalError] is raised inside
    the handler, so no clause of the [try] catches it and [call_gemini_api]
    raises instead of returning a string. *)
Theorem connection_failure_on_first_attempt_raises :
  call_gemini_api (scripted [] connection_refused) "doc" "question" fresh
  = (Raise (mk_exn UnboundLocalError
       "cannot access local variable 'response' where it is not associated with a value"),
     mk_world 1 [post_event "doc" "question"]).
Proof. reflexivity. Qed.

(** C7. When the POST of the current attempt raises a [RequestException]
    while [response] is bound, the local keeps the value [prev] it had
    before the attempt, and the handler decides on that value: the attempt
    is retried (with the notice showing [prev]'s status) exactly when it is
    not the last one and [prev]'s status is 429, 500 or 503; otherwise the
    call returns the API error message.  Nothing of the failing attempt
    enters the decision. *)
Theorem transport_failure_decided_on_bound_response
    (net : transport) (d q : string) (attempt : Z) (prev : Response)
    (w : world) (e : exn) :
  net (posts w) = PostRaises e ->
  is_RequestException e = true ->
  attempt_body net (payload d q) attempt (mk_frame (Some prev) w)
  = if (attempt <? max_retries - 1)
       && py_in (status_code prev) retryable_statuses
    then (Ok Continue,
          mk_frame (Some prev)
            (mk_world (S (posts w))
               (trace w ++ backoff_round d q attempt (status_code prev))))
    else (Ok (Return (JStr (api_error_message attempt e))),
          mk_frame (Some prev) (posted d q w)).
Proof.
  intros Hnet He.
  rewrite (attempt_body_post_raises _ _ _ _ _ _ _ Hnet).
  unfold on_exception. rewrite He.
  destruct (Z.ltb_spec attempt (max_retries - 1)) as [Ha|Ha].
  - destruct (py_in (status_code prev) retryable_statuses) eqn:Hs; simpl.
    + rewrite on_request_exception_retry by assumption.
      unfold shows, posted, backoff_round. simpl. now rewrite <- app_assoc.
    + now rewrite on_request_exception_terminal.
  - simpl. now rewrite on_request_exception_last.
Qed.

Lemma transport_failure_decided_on_bound_response_witness :
  attempt_body (scripted [unavailable] connection_refused)
    (payload "doc" "question") 1
    (mk_frame (Some (http_response 503 "Service Unavailable" (Ok (JDict ∅))))
       (mk_world 1 (backoff_round "doc" "question" 0 503)))
  = (Ok Continue,
     mk_frame (Some (http_response 503 "Service Unavailable" (Ok (JDict ∅))))
       (mk_world 2 (backoff_round "doc" "question" 0 503
                    ++ backoff_round "doc" "question" 1 503)%list)).
Proof.
  apply (transport_failure_decided_on_bound_response
           (scripted [unavailable] connection_refused) "doc" "question" 1
           (http_response 503 "Service Unavailable" (Ok (JDict ∅)))
           (mk_world 1 (backoff_round "doc" "question" 0 503))
           (mk_exn ConnectionError "Connection refused")).
  - reflexivity.
  - reflexivity.
Defined.

(** In a whole call: a retryable HTTP error on the first attempt followed by
    a failing POST on the second is retried on the strength of the first
    attempt's status. *)
Lemma stale_status_drives_retry
    (net : transport) (d q : string) (w : world) (r0 : Response) (e : exn) :
  net (posts w) = PostReturns r0 ->
  py_in (status_code r0) retryable_statuses = true ->
  net (S (posts w)) = PostRaises e ->
  is_RequestException e = true ->
  retry_loop net (payload d q) [0; 1; 2; 3; 4] (mk_frame None w)
  = retry_loop net (payload d q) [2; 3; 4]
      (mk_frame (Some r0)
         (mk_world (S (S (posts w)))
            (trace w ++ backoff_round d q 0 (status_code r0)
                     ++ backoff_round d q 1 (status_code r0)))).
Proof.
  intros H0 S0 H1 He.
  rewrite (loop_http_retry _ _ _ _ _ _ _ r0) by (simpl; done).
  rewrite (loop_transport_failure _ _ _ _ _ _ _ r0 e) by (simpl; done).
  rewrite S0. cbn [posts trace andb Z.ltb Z.compare max_retries].
  simpl (1 <? _). cbn iota. now rewrite <- !app_assoc.
Qed.

(** ** What every call sends *)

Lemma post_bodies_app (xs ys : list event) :
  post_bodies (xs ++ ys) = (post_bodies xs ++ post_bodies ys)%list.
Proof. unfold post_bodies. apply omap_app. Qed.

Lemma on_exception_events (attempt : Z) (e : exn) (bound : option Response) (w : world) :
  exists evs,
    io (snd (on_exception attempt e (mk_frame bound w))) = shows evs w
    /\ post_bodies evs = [].
Proof.
  assert (Hnil : w = shows [] w).
  { destruct w. unfold shows. simpl. now rewrite app_nil_r. }
  unfold on_exception. destruct (is_RequestException e).
  - destruct (Z.ltb_spec attempt (max_retries - 1)) as [Ha|Ha].
    + destruct bound as [r|].
      * destruct (py_in (status_code r) retryable_statuses) eqn:Hs.
        -- rewrite on_request_exception_retry by assumption.
           eexists. split; [reflexivity|reflexivity].
        -- rewrite on_request_exception_terminal by assumption.
           exists []. split; [exact Hnil|reflexivity].
      * rewrite on_request_exception_unbound by assumption.
        exists []. split; [exact Hnil|reflexivity].
    + rewrite on_request_exception_last by assumption.
      exists []. split; [exact Hnil|reflexivity].
  - exists []. split; [exact Hnil|reflexivity].
Qed.

Lemma attempt_body_events (net : transport) (d q : string) (attempt : Z)
    (bound : option Response) (w : world) :
  exists evs,
    io (snd (attempt_body net (payload d q) attempt (mk_frame bound w)))
    = mk_world (S (posts w)) (trace w ++ post_event d q :: evs)
    /\ post_bodies evs = [].
Proof.
  destruct (net (posts w)) as [r|e] eqn:Hnet.
  - rewrite (attempt_body_post_returns _ _ _ _ _ _ _ Hnet).
    destruct (rbind (raise_for_status r) (fun _ => rbind (json_body r) extract_text))
      as [v|e].
    + exists []. split; reflexivity.
    + destruct (on_exception_events attempt e (Some r) (posted d q w))
        as (evs & Hio & Hposts).
      exists evs. rewrite Hio. split; [|exact Hposts].
      unfold shows, posted. simpl. now rewrite <- app_assoc.
  - rewrite (attempt_body_post_raises _ _ _ _ _ _ _ Hnet).
    destruct (on_exception_events attempt e bound (posted d q w))
      as (evs & Hio & Hposts).
    exists evs. rewrite Hio. split; [|exact Hposts].
    unfold shows, posted. simpl. now rewrite <- app_assoc.
Qed.

(** Every run of the loop sends one POST per attempt it makes, each with the
    same body, and never more than there are attempts. *)
Lemma retry_loop_events (net : transport) (d q : string) (attempts : list Z) :
  forall (bound : option Response) (w : world),
  exists evs,
    io (snd (retry_loop net (payload d q) attempts (mk_frame bound w)))
    = mk_world (posts w + length (post_bodies evs)) (trace w ++ evs)
    /\ Forall (eq (payload d q)) (post_bodies evs)
    /\ (length (post_bodies evs) <= length attempts)%nat
    /\ (attempts <> [] -> head evs = Some (post_event d q)).
Proof.
  induction attempts as [|attempt rest IH]; intros bound w.
  - exists []. simpl. destruct w as [n t]. simpl.
    rewrite Nat.add_0_r, app_nil_r. repeat split; [constructor|lia|congruence].
  - rewrite retry_loop_unfold.
    destruct (attempt_body_events net d q attempt bound w) as (evs & Hio & Hposts).
    destruct (attempt_body net (payload d q) attempt (mk_frame bound w))
      as [[[|v]|e] [bound' w']]; simpl in Hio; subst w'.
    + destruct (IH bound' (mk_world (S (posts w)) (trace w ++ post_event d q :: evs)))
        as (evs' & Hio' & Hall & Hlen & _).
      exists (post_event d q :: evs ++ evs')%list. rewrite Hio'.
      change (post_event d q :: evs ++ evs')%list
        with ([post_event d q] ++ evs ++ evs')%list.
      rewrite !post_bodies_app, Hposts. simpl.
      repeat split.
      * f_equal; [lia|]. now rewrite <- app_assoc.
      * constructor; [reflexivity|exact Hall].
      * lia.
    + exists (post_event d q :: evs). simpl. rewrite Hposts. simpl.
      repeat split; [f_equal; lia| constructor; [reflexivity|constructor] | lia].
    + exists (post_event d q :: evs). simpl. rewrite Hposts. simpl.
      repeat split; [f_equal; lia| constructor; [reflexivity|constructor] | lia].
Qed.

(** C8. For non-empty inputs the request body is a dictionary with exactly
    the keys [contents] and [systemInstruction]: [contents] is a one-element
    list whose element has the single part [{text: full prompt}], and
    [systemInstruction] has the single part [{text: system prompt}].  The
    full prompt is the DOCUMENT CONTENT marker, the document verbatim, the
    USER QUESTION marker, the query verbatim, then the INSTRUCTIONS marker
    and the line that asks for an answer from the content above.  Whatever
    the transport does, the call sends at least one POST, at most five, and
    each carries this body to [API_URL] with the JSON content-type header. *)
Theorem request_body_shape
    (net : transport) (d q : string) (w : world) :
  d <> EmptyString -> q <> EmptyString ->
  (exists m : gmap string json,
     payload d q = JDict m
     /\ dom m = {[ "contents"; "systemInstruction" ]}
     /\ m !! "contents"
        = Some (JList [JDict {[ "parts" :=
                                  JList [JDict {[ "text" := JStr (full_prompt d q) ]}] ]}])
     /\ m !! "systemInstruction"
        = Some (JDict {[ "parts" :=
                           JList [JDict {[ "text" := JStr system_prompt ]}] ]}))
  /\ full_prompt d q
     = "--- DOCUMENT CONTENT ---" ++ nl ++ nl ++ d ++ nl ++ nl
       ++ "--- USER QUESTION ---" ++ nl ++ nl ++ q ++ nl ++ nl
       ++ "--- INSTRUCTIONS ---" ++ nl ++ nl
       ++ "Based ONLY on the document content above, provide the summary or answer the question:"
  /\ exists evs,
       snd (call_gemini_api net d q w)
       = mk_world (posts w + length (post_bodies evs)) (trace w ++ evs)
       /\ head evs
          = Some (EvPost API_URL {[ "Content-Type" := "application/json" ]} (payload d q))
       /\ Forall (eq (payload d q)) (post_bodies evs)
       /\ (1 <= length (post_bodies evs) <= 5)%nat.
Proof.
  intros Hd Hq. split; [|split].
  - eexists. split; [reflexivity|]. split; [|split; reflexivity].
    rewrite dom_insert_L, dom_singleton_L. set_solver.
  - reflexivity.
  - rewrite call_gemini_api_dispatch by assumption.
    destruct (retry_loop_events net d q [0; 1; 2; 3; 4] None w)
      as (evs & Hio & Hall & Hlen & Hhead).
    exists evs. cbn [snd]. rewrite Hio. split; [reflexivity|].
    assert (Hh : head evs = Some (post_event d q)) by (apply Hhead; discriminate).
    split; [exact Hh|]. split; [exact Hall|]. split; [|exact Hlen].
    destruct evs as [|ev evs]; [discriminate|].
    simpl in Hh. injection Hh as ->. simpl. lia.
Qed.

Lemma request_body_shape_witness :
  full_prompt "Revenue grew 4%." "How much did revenue grow?"
  = "--- DOCUMENT CONTENT ---" ++ nl ++ nl ++ "Revenue grew 4%." ++ nl ++ nl
    ++ "--- USER QUESTION ---" ++ nl ++ nl ++ "How much did revenue grow?" ++ nl ++ nl
    ++ "--- INSTRUCTIONS ---" ++ nl ++ nl
    ++ "Based ONLY on the document content above, provide the summary or answer the question:".
Proof.
  apply (request_body_shape (scripted [] (answered "By 4%."))
           "Revenue grew 4%." "How much did revenue grow?" fresh).
  - discriminate.
  - discriminate.
Defined.

(** ** The controller's truncation *)

Lemma len_String (c : ascii) (s : string) : len (String c s) = 1 + len s.
Proof. unfold len. simpl String.length. lia. Qed.

Lemma len_nonneg (s : string) : 0 <= len s.
Proof. unfold len. lia. Qed.

Lemma str_prefix_len (s : string) :
  forall n : Z, 0 <= n <= len s -> len (str_prefix n s) = n.
Proof.
  induction s as [|c s IH]; intros n Hn.
  - simpl. unfold len in *. simpl in *. lia.
  - simpl. rewrite len_String in Hn. destruct (Z.leb_spec n 0) as [H0|H0].
    + unfold len. simpl. lia.
    + rewrite len_String, IH by lia. lia.
Qed.

Lemma str_prefix_all (s : string) :
  forall n : Z, len s <= n -> str_prefix n s = s.
Proof.
  induction s as [|c s IH]; intros n Hn; [reflexivity|].
  simpl. rewrite len_String in Hn. pose proof (len_nonneg s).
  destruct (Z.leb_spec n 0) as [H0|H0]; [lia|].
  now rewrite IH by lia.
Qed.

Lemma str_prefix_app (s : string) :
  forall n : Z, exists rest, s = str_prefix n s ++ rest.
Proof.
  induction s as [|c s IH]; intros n.
  - exists EmptyString. reflexivity.
  - simpl. destruct (n <=? 0).
    + exists (String c s). reflexivity.
    + destruct (IH (n - 1)) as [rest Hrest]. exists rest.
      change (String c s = String c (str_prefix (n - 1) s ++ rest)).
      now f_equal.
Qed.

(** [s[:n]] as the standard library's [substring]. *)
Lemma str_prefix_substring (s : string) :
  forall n : Z, 0 <= n -> str_prefix n s = substring 0 (Z.to_nat n) s.
Proof.
  induction s as [|c s IH]; intros n Hn.
  - simpl. now destruct (Z.to_nat n).
  - simpl. destruct (Z.leb_spec n 0) as [H0|H0].
    + now replace n with 0 by lia.
    + replace (Z.to_nat n) with (S (Z.to_nat (n - 1))) by lia.
      simpl. now rewrite IH by lia.
Qed.

Lemma str_prefix_truthy (s : string) (n : Z) :
  0 < n -> truthy s = true -> truthy (str_prefix n s) = true.
Proof.
  intros Hn Hs. destruct s as [|c s]; [discriminate|].
  simpl. destruct (Z.leb_spec n 0); [lia|reflexivity].
Qed.

Lemma truncate_content_truthy (content : string) :
  truthy content = true -> truthy (fst (truncate_content content)) = true.
Proof.
  intros H. unfold truncate_content.
  destruct (len content >? MAX_CHARS); simpl; [|exact H].
  apply str_prefix_truthy; [reflexivity|exact H].
Qed.

(** C9. The truncation is the controller's: on a submit with a document and
    a question, the controller calls the client with the content it has
    prepared and stores the client's result.  When the document is longer
    than 150,000 characters, what it passes is the first 150,000 characters
    and a warning is shown first; a document of 150,000 characters or fewer
    is passed unchanged and no warning is shown.  The client embeds what it
    is given in its POST without cutting it further. *)
Theorem controller_truncates_before_call
    (net : transport) (ss : session_state) (content query : string) (w : world) :
  document_content ss = Some content ->
  content <> EmptyString -> query <> EmptyString ->
  let passed := fst (truncate_content content) in
  let notices := snd (truncate_content content) in
  generate_clicked net ss query w
  = (match call_gemini_api net passed query (shows notices w) with
     | (Ok summary, w') => (Ok (mk_session (Some content) (Some summary)), w')
     | (Raise e, w') => (Raise e, w')
     end)
  /\ (len content > 150000 ->
      len passed = 150000
      /\ (exists rest, content = passed ++ rest)
      /\ passed = substring 0 (Z.to_nat 150000) content
      /\ notices = [EvWarning (truncation_warning content)])
  /\ (len content <= 150000 -> passed = content /\ notices = [])
  /\ exists evs,
       trace (snd (generate_clicked net ss query w))
       = (trace w ++ notices ++ post_event passed query :: evs)%list.
Proof.
  intros Hss Hc Hq passed notices.
  apply truthy_true_iff in Hc. pose proof Hq as Hq'. apply truthy_true_iff in Hq'.
  assert (Hrun : generate_clicked net ss query w
    = (match call_gemini_api net passed query (shows notices w) with
       | (Ok summary, w') => (Ok (mk_session (Some content) (Some summary)), w')
       | (Raise e, w') => (Raise e, w')
       end)).
  { unfold generate_clicked. rewrite Hss, Hc, Hq'. simpl negb. cbn iota.
    unfold passed, notices. now destruct (truncate_content content). }
  split; [exact Hrun|]. split; [|split].
  - intros Hlong. unfold passed, notices, truncate_content.
    replace (len content >? MAX_CHARS) with true
      by (symmetry; apply Z.gtb_lt; unfold MAX_CHARS; lia).
    simpl fst. simpl snd. split; [|split; [|split]].
    + apply str_prefix_len. unfold MAX_CHARS. lia.
    + apply str_prefix_app.
    + now rewrite str_prefix_substring.
    + reflexivity.
  - intros Hshort. unfold passed, notices, truncate_content.
    replace (len content >? MAX_CHARS) with false
      by (symmetry; rewrite Z.gtb_ltb; apply Z.ltb_ge; unfold MAX_CHARS; lia).
    split; reflexivity.
  - rewrite Hrun.
    assert (Hp : passed <> EmptyString).
    { apply truthy_true_iff. now apply truncate_content_truthy. }
    rewrite (call_gemini_api_dispatch net passed query (shows notices w) Hp Hq).
    destruct (retry_loop_events net passed query [0; 1; 2; 3; 4] None (shows notices w))
      as (evs & Hio & _ & _ & Hhead).
    destruct evs as [|ev evs]; [specialize (Hhead ltac:(discriminate)); discriminate|].
    specialize (Hhead ltac:(discriminate)). simpl in Hhead. injection Hhead as ->.
    exists evs.
    destruct (retry_loop net (payload passed query) [0; 1; 2; 3; 4]
                (mk_frame None (shows notices w))) as [[summary|e] [b w']];
      simpl in Hio |- *; subst w'; simpl; now rewrite <- app_assoc.
Qed.

Example truncation_warning_text :
  truncation_warning long_document
  = "Document content is very large (150,001 chars). Truncating to the first 150,000 characters for processing.".
Proof. vm_compute. reflexivity. Qed.

Lemma controller_truncates_before_call_witness :
  len long_document > 150000
  /\ len (fst (truncate_content long_document)) = 150000
  /\ snd (truncate_content long_document)
     = [EvWarning (truncation_warning long_document)].
Proof.
  assert (Hlong : len long_document > 150000) by (vm_compute; reflexivity).
  assert (Hne : long_document <> EmptyString).
  { intros H. apply (f_equal truthy) in H. vm_compute in H. discriminate H. }
  split; [exact Hlong|].
  destruct (controller_truncates_before_call
              (scripted [] (answered "It is a long run of x."))
              (mk_session (Some long_document) None)
              long_document "What is in the document?" fresh
              eq_refl Hne ltac:(discriminate))
    as (_ & Hcut & _).
  destruct (Hcut Hlong) as (Hlen & _ & _ & Hnotice).
  split; [exact Hlen|exact Hnotice].
Defined.

(** * Further properties of [call_gemini_api] *)

Lemma raise_for_status_ok (r : Response) :
  ~ is_http_error (status_code r) -> raise_for_status r = Ok tt.
Proof.
  intros H. unfold raise_for_status, http_error_msg, is_http_error in *.
  destruct (Z.leb_spec 400 (status_code r)), (Z.ltb_spec (status_code r) 500),
    (Z.leb_spec 500 (status_code r)), (Z.ltb_spec (status_code r) 600);
    simpl; try reflexivity; lia.
Qed.

Lemma not_http_error_not_retryable (s : Z) :
  ~ is_http_error s -> py_in s retryable_statuses = false.
Proof.
  intros H. destruct (py_in s retryable_statuses) eqn:Hs; [|reflexivity].
  now apply retryable_is_http_error in Hs.
Qed.

(** The three ways the [except] clauses can end an iteration. *)
Lemma on_exception_cases (attempt : Z) (e : exn) (bound : option Response) (w : world) :
  (exists r, bound = Some r /\ attempt < max_retries - 1
     /\ py_in (status_code r) retryable_statuses = true
     /\ on_exception attempt e (mk_frame bound w)
        = (Ok Continue,
           mk_frame bound
             (shows [EvPrint (retry_notice attempt (status_code r) (2 ^ attempt));
                     EvSleep (2 ^ attempt)] w)))
  \/ (exists v, on_exception attempt e (mk_frame bound w)
                = (Ok (Return v), mk_frame bound w))
  \/ (exists e', bound = None /\ attempt < max_retries - 1
        /\ is_RequestException e = true /\ exn_cls e' = UnboundLocalError
        /\ on_exception attempt e (mk_frame bound w) = (Raise e', mk_frame None w)).
Proof.
  unfold on_exception. destruct (is_RequestException e) eqn:He.
  - destruct (Z.ltb_spec attempt (max_retries - 1)) as [Ha|Ha].
    + destruct bound as [r|].
      * destruct (py_in (status_code r) retryable_statuses) eqn:Hs.
        -- left. exists r. rewrite on_request_exception_retry by assumption. auto.
        -- right. left. eexists. now rewrite on_request_exception_terminal.
      * right. right. eexists. rewrite on_request_exception_unbound by assumption.
        repeat split; try assumption. reflexivity.
    + right. left. eexists. now rewrite on_request_exception_last.
  - right. left. eexists. reflexivity.
Qed.

(** The three ways an iteration can end: a retry after a notice and a sleep,
    a return, or the handler's failure on the unbound [response]. *)
Lemma attempt_body_cases (net : transport) (d q : string) (attempt : Z)
    (bound : option Response) (w : world) :
  (exists r, attempt < max_retries - 1
     /\ py_in (status_code r) retryable_statuses = true
     /\ attempt_body net (payload d q) attempt (mk_frame bound w)
        = (Ok Continue,
           mk_frame (Some r)
             (mk_world (S (posts w))
                (trace w ++ backoff_round d q attempt (status_code r)))))
  \/ (exists v b',
        attempt_body net (payload d q) attempt (mk_frame bound w)
        = (Ok (Return v), mk_frame b' (posted d q w)))
  \/ (exists e e', bound = None /\ attempt < max_retries - 1
        /\ net (posts w) = PostRaises e /\ is_RequestException e = true
        /\ exn_cls e' = UnboundLocalError
        /\ attempt_body net (payload d q) attempt (mk_frame bound w)
           = (Raise e', mk_frame None (posted d q w))).
Proof.
  assert (Hround : forall (b : option Response) (s : Z),
    mk_frame b (shows [EvPrint (retry_notice attempt s (2 ^ attempt));
                       EvSleep (2 ^ attempt)] (posted d q w))
    = mk_frame b (mk_world (S (posts w)) (trace w ++ backoff_round d q attempt s))).
  { intros b s. unfold shows, posted, backoff_round. simpl. now rewrite <- app_assoc. }
  destruct (net (posts w)) as [r|e] eqn:Hnet.
  - rewrite (attempt_body_post_returns _ _ _ _ _ _ _ Hnet).
    destruct (rbind (raise_for_status r) (fun _ => rbind (json_body r) extract_text))
      as [v|e].
    + right. left. eauto.
    + destruct (on_exception_cases attempt e (Some r) (posted d q w))
        as [(r' & Hb & Ha & Hs & Hrun) | [(v & Hrun) | (e' & Hb & _)]].
      * injection Hb as <-. left. exists r. rewrite Hrun, Hround. auto.
      * right. left. eauto.
      * discriminate Hb.
  - rewrite (attempt_body_post_raises _ _ _ _ _ _ _ Hnet).
    destruct (on_exception_cases attempt e bound (posted d q w))
      as [(r' & Hb & Ha & Hs & Hrun) | [(v & Hrun) | (e' & Hb & Ha & He & Hcls & Hrun)]].
    + subst bound. left. exists r'. rewrite Hrun, Hround. auto.
    + right. left. eauto.
    + right. right. exists e, e'. auto 10.
Qed.

(** Every run of the loop over attempts [a], [a+1], ... is a run of retried
    attempts, then either one last POST or, when every attempt was retried,
    the end of the range. *)
Lemma retry_loop_shape (net : transport) (d q : string) :
  forall (n a : nat) (bound : option Response) (w : world),
  exists (statuses : list Z) (out : res json) (b' : option Response),
    Forall (fun s => py_in s retryable_statuses = true) statuses
    /\ (((length statuses < n)%nat
         /\ retry_loop net (payload d q) (map Z.of_nat (seq a n)) (mk_frame bound w)
            = (out,
               mk_frame b'
                 (mk_world (posts w + length statuses + 1)
                    (trace w ++ rounds d q (Z.of_nat a) statuses ++ [post_event d q]))))
        \/ (length statuses = n /\ (n <> 0 -> a + n <= 4)%nat
            /\ retry_loop net (payload d q) (map Z.of_nat (seq a n)) (mk_frame bound w)
               = (out,
                  mk_frame b'
                    (mk_world (posts w + n)
                       (trace w ++ rounds d q (Z.of_nat a) statuses))))).
Proof.
  induction n as [|n IH]; intros a bound w.
  - exists [], (Ok (JStr exhausted_message)), bound. split; [constructor|].
    right. split; [reflexivity|]. split; [congruence|].
    simpl. destruct w as [p t]. simpl. now rewrite Nat.add_0_r, app_nil_r.
  - change (map Z.of_nat (seq a (S n)))
      with (Z.of_nat a :: map Z.of_nat (seq (S a) n)).
    rewrite retry_loop_unfold.
    destruct (attempt_body_cases net d q (Z.of_nat a) bound w)
      as [(r & Ha & Hs & Hrun) | [(v & b' & Hrun) | (e & e' & _ & _ & _ & _ & _ & Hrun)]];
      rewrite Hrun.
    + destruct (IH (S a) (Some r)
                  (mk_world (S (posts w))
                     (trace w ++ backoff_round d q (Z.of_nat a) (status_code r))))
        as (statuses & out & b' & Hall & Hends).
      exists (status_code r :: statuses), out, b'.
      split; [constructor; assumption|].
      replace (Z.of_nat (S a)) with (Z.of_nat a + 1) in Hends by lia.
      cbn [posts trace] in Hends. cbn [rounds length].
      destruct Hends as [(Hlen & Hloop) | (Hlen & Hlast & Hloop)]; rewrite Hloop.
      * left. split; [lia|]. f_equal. f_equal. f_equal; [lia|].
        now rewrite <- !app_assoc.
      * right. split; [lia|]. split.
        -- intros _. unfold max_retries in Ha. destruct n; [lia|].
           specialize (Hlast ltac:(discriminate)). lia.
        -- f_equal. f_equal. f_equal; [lia|]. now rewrite <- !app_assoc.
    + exists [], (Ok v), b'. split; [constructor|]. left. split; [simpl; lia|].
      unfold posted. simpl. f_equal. f_equal. f_equal. lia.
    + exists [], (Raise e'), None. split; [constructor|]. left. split; [simpl; lia|].
      unfold posted. simpl. f_equal. f_equal. f_equal. lia.
Qed.

(** X1. Whatever the transport does, the events of a call with non-empty
    inputs are at most four retried attempts (POST, notice, sleep) followed
    by one last POST: at most five POSTs, one sleep fewer than POSTs, the
    sleeps being the first of 1, 2, 4, 8 seconds in that order, each retried
    attempt showing a status of 429, 500 or 503, and nothing after the last
    POST. *)
Theorem every_call_is_backoff_rounds_then_a_post
    (net : transport) (d q : string) (w : world) :
  d <> EmptyString -> q <> EmptyString ->
  exists statuses : list Z,
    (length statuses <= 4)%nat
    /\ Forall (fun s => s = 429 \/ s = 500 \/ s = 503) statuses
    /\ snd (call_gemini_api net d q w)
       = mk_world (posts w + length statuses + 1)
           (trace w ++ rounds d q 0 statuses ++ [post_event d q])
    /\ sleeps (rounds d q 0 statuses ++ [post_event d q])
       = take (length statuses) [1; 2; 4; 8]
    /\ length (post_bodies (rounds d q 0 statuses ++ [post_event d q]))
       = S (length statuses).
Proof.
  intros Hd Hq. rewrite call_gemini_api_dispatch by assumption.
  destruct (retry_loop_shape net d q 5 0 None w)
    as (statuses & out & b' & Hall & [(Hlen & Hloop) | (Hlen & Hlast & _)]).
  - exists statuses. split; [lia|]. split.
    + eapply Forall_impl; [exact Hall|]. intros s Hs. now apply py_in_retryable.
    + change (map Z.of_nat (seq 0 5)) with [0; 1; 2; 3; 4] in Hloop.
      rewrite Hloop. split; [reflexivity|].
      destruct statuses as [|s0 [|s1 [|s2 [|s3 [|s4 more]]]]];
        try (split; reflexivity). simpl in Hlen. lia.
  - specialize (Hlast ltac:(discriminate)). lia.
Qed.

Lemma every_call_is_backoff_rounds_then_a_post_witness :
  exists statuses : list Z,
    (length statuses <= 4)%nat
    /\ Forall (fun s => s = 429 \/ s = 500 \/ s = 503) statuses
    /\ snd (call_gemini_api (scripted [unavailable; unavailable] connection_refused)
              "doc" "question" fresh)
       = mk_world (posts fresh + length statuses + 1)
           (trace fresh ++ rounds "doc" "question" 0 statuses
            ++ [post_event "doc" "question"])
    /\ sleeps (rounds "doc" "question" 0 statuses ++ [post_event "doc" "question"])
       = take (length statuses) [1; 2; 4; 8]
    /\ length (post_bodies (rounds "doc" "question" 0 statuses
                            ++ [post_event "doc" "question"]))
       = S (length statuses).
Proof.
  apply (every_call_is_backoff_rounds_then_a_post
           (scripted [unavailable; unavailable] connection_refused)
           "doc" "question" fresh); discriminate.
Defined.

(** Once [response] is bound the loop never raises. *)
Lemma bound_loop_returns (net : transport) (d q : string) (attempts : list Z) :
  forall (r : Response) (w : world),
  exists (v : json) (s : frame),
    retry_loop net (payload d q) attempts (mk_frame (Some r) w) = (Ok v, s).
Proof.
  induction attempts as [|attempt rest IH]; intros r w.
  - eexists _, _. reflexivity.
  - rewrite retry_loop_unfold.
    destruct (attempt_body_cases net d q attempt (Some r) w)
      as [(r' & _ & _ & Hrun) | [(v & b' & Hrun) | (e & e' & Hb & _)]].
    + rewrite Hrun. apply IH.
    + rewrite Hrun. eauto.
    + discriminate Hb.
Qed.

(** X2. A call with non-empty inputs raises exactly when its first POST
    raises a [RequestException]; what it raises then is the
    [UnboundLocalError] of the handler, after that single POST.  In every
    other case (in particular once any POST has returned a response) the
    call returns a value. *)
Theorem call_raises_iff_first_post_fails
    (net : transport) (d q : string) (w : world) :
  d <> EmptyString -> q <> EmptyString ->
  ((exists e, fst (call_gemini_api net d q w) = Raise e)
   <-> (exists e0, net (posts w) = PostRaises e0 /\ is_RequestException e0 = true))
  /\ (forall e, fst (call_gemini_api net d q w) = Raise e ->
        exn_cls e = UnboundLocalError
        /\ snd (call_gemini_api net d q w) = posted d q w).
Proof.
  intros Hd Hq. rewrite call_gemini_api_dispatch by assumption. cbn [fst snd].
  rewrite retry_loop_unfold.
  destruct (attempt_body_cases net d q 0 None w)
    as [(r & _ & _ & Hrun) | [(v & b' & Hrun) | (e0 & e' & _ & _ & Hnet & He & Hcls & Hrun)]];
    rewrite Hrun.
  - destruct (bound_loop_returns net d q [1; 2; 3; 4] r
                (mk_world (S (posts w)) (trace w ++ backoff_round d q 0 (status_code r))))
      as (v & s & Hloop).
    rewrite Hloop. cbn [fst]. split; [split|].
    + intros [e He]. discriminate He.
    + intros (e0 & Hnet & He).
      rewrite (attempt_body_post_raises _ _ _ _ _ _ _ Hnet) in Hrun.
      unfold on_exception in Hrun. rewrite He in Hrun.
      rewrite on_request_exception_unbound in Hrun by reflexivity.
      discriminate Hrun.
    + intros e He. discriminate He.
  - cbn [fst]. split; [split|].
    + intros [e He]. discriminate He.
    + intros (e0 & Hnet & He).
      rewrite (attempt_body_post_raises _ _ _ _ _ _ _ Hnet) in Hrun.
      unfold on_exception in Hrun. rewrite He in Hrun.
      rewrite on_request_exception_unbound in Hrun by reflexivity.
      discriminate Hrun.
    + intros e He. discriminate He.
  - cbn [fst snd io]. split; [split|].
    + intros _. eauto.
    + intros _. eauto.
    + intros e Hr. injection Hr as <-. auto.
Qed.

Lemma call_raises_iff_first_post_fails_witness :
  (exists e, fst (call_gemini_api (scripted [unavailable] connection_refused)
                    "doc" "question" fresh) = Raise e)
  <-> (exists e0, scripted [unavailable] connection_refused (posts fresh) = PostRaises e0
                  /\ is_RequestException e0 = true).
Proof.
  apply (call_raises_iff_first_post_fails
           (scripted [unavailable] connection_refused) "doc" "question" fresh);
    discriminate.
Defined.

(** X3. The last attempt of the range never asks for a retry: whatever the
    transport does and whatever [response] is bound to, its iteration returns
    or raises.  So nothing placed after the fifth attempt is ever run:
    lengthening the range changes neither the result nor the events, and
    the loop is never left through its end (line 110). *)
Theorem fifth_attempt_ends_the_loop
    (net : transport) (d q : string) (bound : option Response) (w : world)
    (more : list Z) :
  (forall attempt : Z, max_retries - 1 <= attempt ->
     fst (attempt_body net (payload d q) attempt (mk_frame bound w)) <> Ok Continue)
  /\ retry_loop net (payload d q) (py_range max_retries ++ more) (mk_frame bound w)
     = retry_loop net (payload d q) (py_range max_retries) (mk_frame bound w).
Proof.
  assert (Hend : forall (attempt : Z) (b : option Response) (w0 : world),
    max_retries - 1 <= attempt ->
    fst (attempt_body net (payload d q) attempt (mk_frame b w0)) <> Ok Continue).
  { intros attempt b w0 Hlast.
    destruct (attempt_body_cases net d q attempt b w0)
      as [(r & Ha & _) | [(v & b' & Hrun) | (e & e' & _ & Ha & _)]];
      [lia | rewrite Hrun; discriminate | lia]. }
  split; [intros attempt; apply Hend|].
  assert (Hstep : forall (pre : list Z) (s : frame),
    retry_loop net (payload d q) (pre ++ 4 :: more) s
    = retry_loop net (payload d q) (pre ++ [4]) s).
  { induction pre as [|a pre IH]; intros [b w0].
    - cbn [app]. rewrite !retry_loop_unfold.
      pose proof (Hend 4 b w0 ltac:(reflexivity)) as H4.
      destruct (attempt_body net (payload d q) 4 (mk_frame b w0))
        as [[[|v]|e] s]; [now contradiction H4 | reflexivity | reflexivity].
    - cbn [app]. rewrite !retry_loop_unfold.
      destruct (attempt_body net (payload d q) a (mk_frame b w0))
        as [[[|v]|e] s]; [apply IH | reflexivity | reflexivity]. }
  rewrite py_range_max_retries. exact (Hstep [0; 1; 2; 3] (mk_frame bound w)).
Qed.

Lemma extract_text_answer_value (body v : json) :
  answer_value body v -> extract_text body = Ok v.
Proof.
  intros (m & c & ct & p & cs & ps & -> & Hm & Hc & Hct & Hp).
  unfold extract_text. simpl. rewrite Hm. simpl. rewrite Hc. simpl.
  rewrite Hct. simpl. now rewrite Hp.
Qed.

(** A run of retryable HTTP errors at the head of the range is consumed one
    round at a time. *)
Lemma retried_prefix (net : transport) (d q : string) (rs : list Response) :
  forall (n a : nat) (bound : option Response) (w : world),
  (a + length rs <= 4)%nat -> (length rs <= n)%nat ->
  (forall (i : nat) (r : Response), rs !! i = Some r ->
     net (posts w + i)%nat = PostReturns r
     /\ py_in (status_code r) retryable_statuses = true) ->
  exists b' : option Response,
    retry_loop net (payload d q) (map Z.of_nat (seq a n)) (mk_frame bound w)
    = retry_loop net (payload d q)
        (map Z.of_nat (seq (a + length rs) (n - length rs)))
        (mk_frame b'
           (mk_world (posts w + length rs)
              (trace w ++ rounds d q (Z.of_nat a) (map status_code rs)))).
Proof.
  induction rs as [|r rs IH]; intros n a bound w Ha Hn Hnet.
  - exists bound. simpl. destruct w as [p t]. simpl.
    now rewrite !Nat.add_0_r, Nat.sub_0_r, app_nil_r.
  - destruct n as [|n]; [simpl in Hn; lia|]. simpl in Ha, Hn.
    destruct (Hnet 0%nat r eq_refl) as [H0 Hs]. rewrite Nat.add_0_r in H0.
    change (map Z.of_nat (seq a (S n)))
      with (Z.of_nat a :: map Z.of_nat (seq (S a) n)).
    rewrite (loop_http_retry _ _ _ _ _ _ _ r H0 Hs) by (unfold max_retries; lia).
    destruct (IH n (S a) (Some r)
                (mk_world (S (posts w))
                   (trace w ++ backoff_round d q (Z.of_nat a) (status_code r))))
      as [b' Hloop]; [lia | lia | |].
    + intros i r' Hi. cbn [posts].
      replace (S (posts w) + i)%nat with (posts w + S i)%nat by lia.
      apply Hnet. exact Hi.
    + exists b'. rewrite Hloop. cbn [posts trace length map rounds].
      replace (Z.of_nat (S a)) with (Z.of_nat a + 1) by lia.
      replace (S a + length rs)%nat with (a + S (length rs))%nat by lia.
      replace (S (posts w) + length rs)%nat with (posts w + S (length rs))%nat by lia.
      cbn [Nat.sub]. now rewrite <- !app_assoc.
Qed.

(** X4. If the first [k] attempts ([k] at most 4) are answered with
    statuses among 429, 500 and 503, in any mix, and the next one with a
    status that is not an HTTP error and a body of the expected shape, the
    call returns the value found under [text] exactly as it is (whatever
    its text, and whatever its type), after [k + 1] POSTs and sleeps of the
    first [k] of 1, 2, 4, 8 seconds. *)
Theorem retryable_failures_then_answer
    (net : transport) (d q : string) (w : world)
    (rs : list Response) (r : Response) (body v : json) :
  d <> EmptyString -> q <> EmptyString ->
  (length rs <= 4)%nat ->
  (forall (i : nat) (r' : Response), rs !! i = Some r' ->
     net (posts w + i)%nat = PostReturns r'
     /\ py_in (status_code r') retryable_statuses = true) ->
  net (posts w + length rs)%nat = PostReturns r ->
  ~ is_http_error (status_code r) ->
  json_body r = Ok body ->
  answer_value body v ->
  call_gemini_api net d q w
  = (Ok v,
     mk_world (posts w + length rs + 1)
       (trace w ++ rounds d q 0 (map status_code rs) ++ [post_event d q]))
  /\ sleeps (rounds d q 0 (map status_code rs) ++ [post_event d q])
     = take (length rs) [1; 2; 4; 8].
Proof.
  intros Hd Hq Hlen Hrs Hnet Hst Hbody Hans. split.
  - rewrite call_gemini_api_dispatch by assumption.
    destruct (retried_prefix net d q rs 5 0 None w) as [b' Hloop]; [lia|lia|exact Hrs|].
    change [0; 1; 2; 3; 4] with (map Z.of_nat (seq 0 5)). rewrite Hloop.
    replace (5 - length rs)%nat with (S (4 - length rs)) by lia.
    cbn [seq map Nat.add].
    rewrite (loop_decoded _ _ _ _ _ _ _ r body) by
      (try assumption; now apply raise_for_status_ok).
    rewrite (extract_text_answer_value _ _ Hans).
    unfold posted. cbn [fst snd io posts trace]. f_equal. f_equal; [lia|].
    now rewrite <- !app_assoc.
  - destruct rs as [|r0 [|r1 [|r2 [|r3 [|r4 more]]]]]; try reflexivity.
    simpl in Hlen. lia.
Qed.

Lemma retryable_failures_then_answer_witness :
  call_gemini_api
    (scripted [PostReturns (http_response 429 "Too Many Requests" (Ok JNull));
               PostReturns (http_response 500 "Internal Server Error" (Ok JNull))]
       (PostReturns (http_response 200 "OK"
                       (Ok (JDict {[ "candidates" :=
                              JList [JDict {[ "content" :=
                                JDict {[ "parts" :=
                                  JList [JDict {[ "text" := JInt 42 ]}] ]} ]}] ]})))))
    "doc" "question" fresh
  = (Ok (JInt 42),
     mk_world 3
       (rounds "doc" "question" 0 [429; 500] ++ [post_event "doc" "question"])%list).
Proof.
  apply (retryable_failures_then_answer _ "doc" "question" fresh
           [http_response 429 "Too Many Requests" (Ok JNull);
            http_response 500 "Internal Server Error" (Ok JNull)]
           (http_response 200 "OK"
              (Ok (JDict {[ "candidates" :=
                     JList [JDict {[ "content" :=
                       JDict {[ "parts" :=
                         JList [JDict {[ "text" := JInt 42 ]}] ]} ]}] ]})))
           (JDict {[ "candidates" :=
              JList [JDict {[ "content" :=
                JDict {[ "parts" := JList [JDict {[ "text" := JInt 42 ]}] ]} ]}] ]})
           (JInt 42)).
  - discriminate.
  - discriminate.
  - simpl. lia.
  - intros [|[|i]] r' Hi; simpl in Hi; try discriminate;
      injection Hi as <-; split; reflexivity.
  - reflexivity.
  - unfold is_http_error. simpl. lia.
  - reflexivity.
  - unfold answer_value. do 4 eexists. exists [], []. repeat split.
Defined.

Lemma extract_text_not_dict (body : json) :
  is_dict body = false ->
  extract_text body
  = Raise (mk_exn AttributeError
             ("'" ++ type_name body ++ "' object has no attribute 'get'")).
Proof. destruct body; simpl; intros H; try reflexivity; discriminate H. Qed.

(** X5. When a response that is not an HTTP error decodes to JSON that is
    not an object (a list, a string, a number, a boolean or null), the very
    first [.get] raises [AttributeError]; the generic clause returns
    "An unexpected error occurred: '<type>' object has no attribute 'get'"
    and the call ends after that single POST, without a retry. *)
Theorem non_object_body_is_unexpected_error
    (net : transport) (d q : string) (w : world) (r : Response) (body : json) :
  d <> EmptyString -> q <> EmptyString ->
  net (posts w) = PostReturns r ->
  ~ is_http_error (status_code r) ->
  json_body r = Ok body ->
  is_dict body = false ->
  call_gemini_api net d q w
  = (Ok (JStr ("An unexpected error occurred: '" ++ type_name body
               ++ "' object has no attribute 'get'")),
     posted d q w).
Proof.
  intros Hd Hq Hnet Hst Hbody Hshape. rewrite call_gemini_api_dispatch by assumption.
  rewrite (loop_decoded _ _ _ _ _ _ _ r body) by
    (try assumption; now apply raise_for_status_ok).
  rewrite (extract_text_not_dict _ Hshape). reflexivity.
Qed.

Lemma non_object_body_is_unexpected_error_witness :
  call_gemini_api
    (scripted [] (PostReturns (http_response 200 "OK" (Ok (JList [JStr "hello"])))))
    "doc" "question" fresh
  = (Ok (JStr "An unexpected error occurred: 'list' object has no attribute 'get'"),
     posted "doc" "question" fresh).
Proof.
  apply (non_object_body_is_unexpected_error _ "doc" "question" fresh
           (http_response 200 "OK" (Ok (JList [JStr "hello"])))
           (JList [JStr "hello"])).
  - discriminate.
  - discriminate.
  - reflexivity.
  - unfold is_http_error. simpl. lia.
  - reflexivity.
  - reflexivity.
Defined.

(** X6. When [response.json()] itself raises on a response that is not an
    HTTP error, the call ends after that single POST without a retry.  The
    message depends on the class of the exception: a [RequestException] (as
    the JSON decoding error of recent versions of requests is) gives
    "An API error occurred after 1 attempts: ...", any other exception
    "An unexpected error occurred: ...". *)
Theorem undecodable_body_ends_call
    (net : transport) (d q : string) (w : world) (r : Response) (e : exn) :
  d <> EmptyString -> q <> EmptyString ->
  net (posts w) = PostReturns r ->
  ~ is_http_error (status_code r) ->
  json_body r = Raise e ->
  call_gemini_api net d q w
  = (Ok (JStr (if is_RequestException e
               then "An API error occurred after 1 attempts: " ++ exn_msg e
               else "An unexpected error occurred: " ++ exn_msg e)),
     posted d q w).
Proof.
  intros Hd Hq Hnet Hst Hbody. rewrite call_gemini_api_dispatch by assumption.
  rewrite retry_loop_unfold.
  rewrite (attempt_body_post_returns _ _ _ _ _ _ _ Hnet).
  rewrite (raise_for_status_ok _ Hst), Hbody. cbn [rbind].
  unfold on_exception. destruct (is_RequestException e).
  - rewrite on_request_exception_terminal
      by now apply not_http_error_not_retryable.
    reflexivity.
  - reflexivity.
Qed.

Lemma undecodable_body_ends_call_witness :
  call_gemini_api
    (scripted [] (PostReturns
                    (http_response 200 "OK"
                       (Raise (mk_exn RequestsJSONDecodeError
                                 "Expecting value: line 1 column 1 (char 0)")))))
    "doc" "question" fresh
  = (Ok (JStr "An API error occurred after 1 attempts: Expecting value: line 1 column 1 (char 0)"),
     posted "doc" "question" fresh).
Proof.
  apply (undecodable_body_ends_call _ "doc" "question" fresh
           (http_response 200 "OK"
              (Raise (mk_exn RequestsJSONDecodeError
                        "Expecting value: line 1 column 1 (char 0)")))
           (mk_exn RequestsJSONDecodeError "Expecting value: line 1 column 1 (char 0)")).
  - discriminate.
  - discriminate.
  - reflexivity.
  - unfold is_http_error. simpl. lia.
  - reflexivity.
Defined.

(** X7. When [requests.post] raises an exception that is not a
    [RequestException], the generic clause answers: the call returns
    "An unexpected error occurred: ..." after that single POST, also on the
    first attempt, where [response] is still unbound. *)
Theorem foreign_exception_is_unexpected_error
    (net : transport) (d q : string) (w : world) (e : exn) :
  d <> EmptyString -> q <> EmptyString ->
  net (posts w) = PostRaises e ->
  is_RequestException e = false ->
  call_gemini_api net d q w
  = (Ok (JStr ("An unexpected error occurred: " ++ exn_msg e)), posted d q w).
Proof.
  intros Hd Hq Hnet He. rewrite call_gemini_api_dispatch by assumption.
  rewrite retry_loop_unfold.
  rewrite (attempt_body_post_raises _ _ _ _ _ _ _ Hnet).
  unfold on_exception. rewrite He. reflexivity.
Qed.

Lemma foreign_exception_is_unexpected_error_witness :
  call_gemini_api
    (scripted [] (PostRaises (mk_exn ValueError "check_hostname requires server_hostname")))
    "doc" "question" fresh
  = (Ok (JStr "An unexpected error occurred: check_hostname requires server_hostname"),
     posted "doc" "question" fresh).
Proof.
  apply (foreign_exception_is_unexpected_error _ "doc" "question" fresh
           (mk_exn ValueError "check_hostname requires server_hostname")).
  - discriminate.
  - discriminate.
  - reflexivity.
  - reflexivity.
Defined.

(** X8. After one retryable HTTP error, failures of the POST itself are
    retried on the strength of that first status: if the first attempt is
    answered with 429, 500 or 503 and the POSTs of attempts 2 to 5 all raise
    a [RequestException], the call sends all five POSTs, sleeps 1, 2, 4 and
    8 seconds, shows the first attempt's status in all four notices, and
    returns "An API error occurred after 5 attempts: " with the text of the
    last exception. *)
Theorem transport_failures_ride_on_first_status
    (net : transport) (d q : string) (w : world) (r0 : Response)
    (e1 e2 e3 e4 : exn) :
  d <> EmptyString -> q <> EmptyString ->
  net (posts w) = PostReturns r0 ->
  py_in (status_code r0) retryable_statuses = true ->
  net (posts w + 1)%nat = PostRaises e1 -> is_RequestException e1 = true ->
  net (posts w + 2)%nat = PostRaises e2 -> is_RequestException e2 = true ->
  net (posts w + 3)%nat = PostRaises e3 -> is_RequestException e3 = true ->
  net (posts w + 4)%nat = PostRaises e4 -> is_RequestException e4 = true ->
  let s0 := status_code r0 in
  call_gemini_api net d q w
  = (Ok (JStr ("An API error occurred after 5 attempts: " ++ exn_msg e4)),
     mk_world (posts w + 5)
       (trace w ++ rounds d q 0 [s0; s0; s0; s0] ++ [post_event d q]))
  /\ sleeps (rounds d q 0 [s0; s0; s0; s0] ++ [post_event d q]) = [1; 2; 4; 8].
Proof.
  intros Hd Hq H0 S0 H1 E1 H2 E2 H3 E3 H4 E4 s0. split; [|reflexivity].
  replace (posts w + 1)%nat with (S (posts w)) in H1 by lia.
  replace (posts w + 2)%nat with (S (S (posts w))) in H2 by lia.
  replace (posts w + 3)%nat with (S (S (S (posts w)))) in H3 by lia.
  replace (posts w + 4)%nat with (S (S (S (S (posts w))))) in H4 by lia.
  rewrite call_gemini_api_dispatch by assumption.
  rewrite (loop_http_retry _ _ _ _ _ _ _ r0) by (simpl; done).
  rewrite (loop_transport_failure _ _ _ _ _ _ _ r0 e1) by (simpl; done).
  rewrite S0. cbn [andb]. replace (1 <? max_retries - 1) with true by reflexivity.
  rewrite (loop_transport_failure _ _ _ _ _ _ _ r0 e2) by (simpl; done).
  rewrite S0. replace (2 <? max_retries - 1) with true by reflexivity. cbn [andb].
  rewrite (loop_transport_failure _ _ _ _ _ _ _ r0 e3) by (simpl; done).
  rewrite S0. replace (3 <? max_retries - 1) with true by reflexivity. cbn [andb].
  rewrite (loop_transport_failure _ _ _ _ _ _ _ r0 e4) by (simpl; done).
  replace (4 <? max_retries - 1) with false by reflexivity. cbn [andb].
  rewrite api_error_message_fifth. unfold posted, s0.
  cbn [fst snd io posts trace rounds]. f_equal. f_equal; [lia|].
  rewrite <- !app_assoc. reflexivity.
Qed.

Lemma transport_failures_ride_on_first_status_witness :
  call_gemini_api (scripted [unavailable] connection_refused) "doc" "question" fresh
  = (Ok (JStr "An API error occurred after 5 attempts: Connection refused"),
     mk_world 5
       (rounds "doc" "question" 0 [503; 503; 503; 503]
        ++ [post_event "doc" "question"])%list).
Proof.
  apply (transport_failures_ride_on_first_status
           (scripted [unavailable] connection_refused) "doc" "question" fresh
           (http_response 503 "Service Unavailable" (Ok (JDict ∅)))
           (mk_exn ConnectionError "Connection refused")
           (mk_exn ConnectionError "Connection refused")
           (mk_exn ConnectionError "Connection refused")
           (mk_exn ConnectionError "Connection refused"));
    try discriminate; reflexivity.
Defined.

(** * Properties of [extract_text_from_file] *)

Lemma str_app_nil_r (s : string) : s ++ EmptyString = s.
Proof.
  induction s as [|c s IH]; [reflexivity|].
  change (String c (s ++ EmptyString) = String c s). now rewrite IH.
Qed.

Lemma str_app_assoc (a b c : string) : (a ++ b) ++ c = a ++ (b ++ c).
Proof.
  induction a as [|x a IH]; [reflexivity|].
  change (String x ((a ++ b) ++ c) = String x (a ++ (b ++ c))). now rewrite IH.
Qed.

Lemma len_app (a b : string) : len (a ++ b) = len a + len b.
Proof.
  induction a as [|x a IH]; [reflexivity|].
  change (len (String x (a ++ b)) = len (String x a) + len b).
  rewrite !len_String, IH. lia.
Qed.

Lemma truthy_app_l (a b : string) : truthy a = true -> truthy (a ++ b) = true.
Proof. destruct a; [discriminate|reflexivity]. Qed.

Lemma split_on_nonempty (sep : ascii) (s : string) : split_on sep s <> [].
Proof.
  destruct s as [|c s]; simpl; [discriminate|].
  destruct (Ascii.eqb c sep); [discriminate|].
  destruct (split_on sep s); discriminate.
Qed.

(** [(a + sep + b).split(sep) == a.split(sep) + b.split(sep)] *)
Lemma split_on_app_sep (sep : ascii) (a b : string) :
  split_on sep (a ++ String sep b) = (split_on sep a ++ split_on sep b)%list.
Proof.
  induction a as [|c a IH].
  - change (split_on sep (String sep b) = (EmptyString :: split_on sep b)).
    simpl. now rewrite Ascii.eqb_refl.
  - change (split_on sep (String c (a ++ String sep b))
            = (split_on sep (String c a) ++ split_on sep b)%list).
    simpl. destruct (Ascii.eqb c sep).
    + now rewrite IH.
    + rewrite IH. pose proof (split_on_nonempty sep a) as Hne.
      destruct (split_on sep a) as [|piece pieces]; [congruence|reflexivity].
Qed.

Lemma split_on_no_sep (sep : ascii) (s : string) :
  ~ In sep (list_ascii_of_string s) -> split_on sep s = [s].
Proof.
  induction s as [|c s IH]; intros Hnot; [reflexivity|].
  simpl in *. destruct (Ascii.eqb_spec c sep) as [->|Hne].
  - exfalso. apply Hnot. now left.
  - rewrite IH; [reflexivity|]. intros Hin. apply Hnot. now right.
Qed.

Lemma file_extension_dotted (stem ext : string) :
  ~ In "."%char (list_ascii_of_string ext) ->
  file_extension (stem ++ "." ++ ext) = lower ext.
Proof.
  intros Hext. unfold file_extension.
  change ("." ++ ext) with (String "."%char ext).
  rewrite split_on_app_sep, (split_on_no_sep _ _ Hext).
  now rewrite List.last_last.
Qed.



(** X10. A file whose last name component lowers to "txt" is decoded as
    UTF-8, whatever the case of the extension and whether or not PyPDF2 is
    there: the decoded text is returned as it is with no notice, and a
    decoding failure gives the empty text and the single notice
    "Error reading TXT file: ...". *)
Theorem text_file_is_decoded_or_reported
    (available : bool) (f : uploaded_file) (stem ext : string) :
  name f = stem ++ "." ++ ext ->
  ~ In "."%char (list_ascii_of_string ext) ->
  lower ext = "txt" ->
  (forall text, read_utf8 f = Ok text ->
     extract_text_from_file available f = (text, []))
  /\ (forall e, read_utf8 f = Raise e ->
        extract_text_from_file available f
        = (EmptyString, [EvError ("Error reading TXT file: " ++ exn_msg e)])).
Proof.
  intros Hname Hext Htxt. unfold extract_text_from_file.
  rewrite Hname, (file_extension_dotted stem ext Hext), Htxt.
  split; intros x Hx; rewrite Hx; reflexivity.
Qed.

Lemma text_file_is_decoded_or_reported_witness :
  extract_text_from_file false
    (mk_file "notes.final.TXT" (Ok "Revenue grew 4%.")
       (Raise (mk_exn OtherException "EOF marker not found")))
  = ("Revenue grew 4%.", []).
Proof.
  apply (text_file_is_decoded_or_reported false
           (mk_file "notes.final.TXT" (Ok "Revenue grew 4%.")
              (Raise (mk_exn OtherException "EOF marker not found")))
           "notes.final" "TXT").
  - reflexivity.
  - simpl. intros [H|[H|[H|[]]]]; discriminate H.
  - reflexivity.
  - reflexivity.
Defined.

(** X11. A file whose last name component lowers to neither "txt" nor
    "pdf" is not read at all: the function returns the empty text and shows
    no notice, whatever the file holds. *)
Theorem unsupported_file_is_silently_empty
    (available : bool) (f : uploaded_file) (stem ext : string) :
  name f = stem ++ "." ++ ext ->
  ~ In "."%char (list_ascii_of_string ext) ->
  lower ext <> "txt" -> lower ext <> "pdf" ->
  extract_text_from_file available f = (EmptyString, []).
Proof.
  intros Hname Hext Htxt Hpdf. unfold extract_text_from_file.
  rewrite Hname, (file_extension_dotted stem ext Hext).
  apply String.eqb_neq in Htxt, Hpdf. now rewrite Htxt, Hpdf.
Qed.

Lemma unsupported_file_is_silently_empty_witness :
  extract_text_from_file true
    (mk_file "minutes.docx" (Ok "Agenda") (Ok [Ok (Some "Agenda")]))
  = (EmptyString, []).
Proof.
  apply (unsupported_file_is_silently_empty true
           (mk_file "minutes.docx" (Ok "Agenda") (Ok [Ok (Some "Agenda")]))
           "minutes" "docx").
  - reflexivity.
  - simpl. intros [H|[H|[H|[H|[]]]]]; discriminate H.
  - discriminate.
  - discriminate.
Defined.

Lemma read_pages_app (texts : list (option string)) (rest : list (res (option string))) :
  forall text : string,
  read_pages (map Ok texts ++ rest) text
  = read_pages rest
      (text ++ fold_right String.append EmptyString (map (default EmptyString) texts)).
Proof.
  induction texts as [|t texts IH]; intros text.
  - simpl. now rewrite str_app_nil_r.
  - simpl. rewrite IH. now rewrite str_app_assoc.
Qed.

(** X12. For a file whose last name component lowers to "pdf", with PyPDF2
    there and the reader built: the text is the concatenation of the pages'
    texts in order, a page without text counting as empty.  If a page
    raises, the pages before it are still returned (the text is not reset),
    the pages after it are not read, and the single notice
    "Error processing PDF file: ..." is shown. *)
Theorem pdf_text_is_pages_up_to_first_failure
    (f : uploaded_file) (stem ext : string)
    (texts : list (option string)) (rest : list (res (option string))) :
  name f = stem ++ "." ++ ext ->
  ~ In "."%char (list_ascii_of_string ext) ->
  lower ext = "pdf" ->
  read_pdf f = Ok (map Ok texts ++ rest)%list ->
  let gathered :=
    fold_right String.append EmptyString (map (default EmptyString) texts) in
  (rest = [] -> extract_text_from_file true f = (gathered, []))
  /\ (forall e later, rest = Raise e :: later ->
        extract_text_from_file true f
        = (gathered, [EvError ("Error processing PDF file: " ++ exn_msg e)])).
Proof.
  intros Hname Hext Hpdf Hread gathered. unfold extract_text_from_file.
  rewrite Hname, (file_extension_dotted stem ext Hext), Hpdf, Hread.
  rewrite read_pages_app. fold gathered.
  change (EmptyString ++ gathered) with gathered.
  split.
  - intros ->. reflexivity.
  - intros e later ->. reflexivity.
Qed.

Lemma pdf_text_is_pages_up_to_first_failure_witness :
  extract_text_from_file true
    (mk_file "scan.pdf" (Raise (mk_exn ValueError "invalid start byte"))
       (Ok [Ok (Some "Page one. "); Ok None; Ok (Some "Page three. ");
            Raise (mk_exn OtherException "unsupported filter");
            Ok (Some "Page five.")]))
  = ("Page one. Page three. ",
     [EvError "Error processing PDF file: unsupported filter"]).
Proof.
  assert (Hext : ~ In "."%char (list_ascii_of_string "pdf")).
  { simpl. intros [H|[H|[H|[]]]]; discriminate H. }
  exact (proj2 (pdf_text_is_pages_up_to_first_failure
                  (mk_file "scan.pdf" (Raise (mk_exn ValueError "invalid start byte"))
                     (Ok [Ok (Some "Page one. "); Ok None; Ok (Some "Page three. ");
                          Raise (mk_exn OtherException "unsupported filter");
                          Ok (Some "Page five.")]))
                  "scan" "pdf"
                  [Some "Page one. "; None; Some "Page three. "]
                  [Raise (mk_exn OtherException "unsupported filter");
                   Ok (Some "Page five.")]
                  eq_refl Hext eq_refl eq_refl)
           (mk_exn OtherException "unsupported filter")
           [Ok (Some "Page five.")] eq_refl).
Defined.

(** * Properties of the page: upload, preview, submit *)

Lemma process_files_chunks (available : bool) (files : list uploaded_file) :
  forall (chunks : list string) (shown : list widget),
  fst (process_files available files chunks shown)
  = (chunks
     ++ flat_map (fun f =>
          if truthy (fst (extract_text_from_file available f))
          then [file_chunk (name f) (fst (extract_text_from_file available f))]
          else []) files)%list.
Proof.
  induction files as [|f files IH]; intros chunks shown.
  - simpl. now rewrite app_nil_r.
  - simpl. destruct (extract_text_from_file available f) as [text errors].
    rewrite IH. simpl. destruct (truthy text); [|reflexivity].
    now rewrite <- app_assoc.
Qed.

Lemma process_files_notices (available : bool) (files : list uploaded_file) :
  forall (chunks : list string) (shown : list widget),
  snd (process_files available files chunks shown)
  = (shown
     ++ flat_map (fun f => map Notice (snd (extract_text_from_file available f)))
          files)%list.
Proof.
  induction files as [|f files IH]; intros chunks shown.
  - simpl. now rewrite app_nil_r.
  - simpl. destruct (extract_text_from_file available f) as [text errors].
    rewrite IH. simpl. now rewrite <- app_assoc.
Qed.

Lemma process_uploads_unfold (available : bool) (files : list uploaded_file)
    (ss : session_state) :
  files <> [] ->
  process_uploads available files ss
  = (mk_session (Some (py_join nl (fst (process_files available files [] []))))
       (summary_result ss),
     (snd (process_files available files [] [])
      ++ [Success (success_message files)])%list).
Proof.
  intros Hne. destruct files as [|f files]; [congruence|].
  unfold process_uploads.
  now destruct (process_files available (f :: files) [] []).
Qed.

Lemma py_join_truthy (sep : string) (chunks : list string) :
  Forall (fun c => truthy c = true) chunks -> chunks <> [] ->
  truthy (py_join sep chunks) = true.
Proof.
  intros Hall Hne. destruct chunks as [|c [|c' more]]; [congruence| |].
  - now inversion Hall.
  - change (truthy (c ++ sep ++ py_join sep (c' :: more)) = true).
    apply truthy_app_l. now inversion Hall.
Qed.

(** X13. After an upload of at least one file the session always holds a
    [document_content], and the success notice for all the files comes
    last; the stored content is non-empty exactly when at least one of the
    files gave a non-empty text. *)
Theorem stored_content_nonempty_iff_some_text
    (available : bool) (files : list uploaded_file) (ss : session_state) :
  files <> [] ->
  exists (content : string) (shown : list widget),
    process_uploads available files ss
    = (mk_session (Some content) (summary_result ss),
       (shown ++ [Success (success_message files)])%list)
    /\ (content <> EmptyString
        <-> Exists (fun f => fst (extract_text_from_file available f) <> EmptyString)
              files).
Proof.
  intros Hne. eexists _, _. split; [now apply process_uploads_unfold|].
  rewrite process_files_chunks. cbn [app]. rewrite <- truthy_true_iff.
  induction files as [|f files IH]; [congruence|]. clear Hne.
  cbn [flat_map]. rewrite Exists_cons, <- truthy_true_iff.
  destruct (truthy (fst (extract_text_from_file available f))) eqn:Ht.
  - split; [now left|]. intros _.
    change ([file_chunk (name f) (fst (extract_text_from_file available f))] ++ ?l)%list
      with (file_chunk (name f) (fst (extract_text_from_file available f)) :: l).
    match goal with |- truthy (py_join nl (?c :: ?l)) = true =>
      destruct l; [reflexivity|apply truthy_app_l; reflexivity] end.
  - cbn [app]. destruct files as [|f' files].
    + simpl. split; [discriminate|]. intros [H|H]; [discriminate|inversion H].
    + rewrite (IH ltac:(discriminate)). split; [now right|].
      intros [H|H]; [discriminate|exact H].
Qed.

Lemma stored_content_nonempty_iff_some_text_witness :
  exists (content : string) (shown : list widget),
    process_uploads true
      [mk_file "minutes.docx" (Ok "Agenda") (Ok []);
       mk_file "notes.txt" (Ok "Revenue grew 4%.") (Ok [])]
      (mk_session None None)
    = (mk_session (Some content) None,
       (shown ++ [Success "Successfully processed 2 file(s)."])%list)
    /\ (content <> EmptyString
        <-> Exists (fun f => fst (extract_text_from_file true f) <> EmptyString)
              [mk_file "minutes.docx" (Ok "Agenda") (Ok []);
               mk_file "notes.txt" (Ok "Revenue grew 4%.") (Ok [])]).
Proof.
  apply (stored_content_nonempty_iff_some_text true
           [mk_file "minutes.docx" (Ok "Agenda") (Ok []);
            mk_file "notes.txt" (Ok "Revenue grew 4%.") (Ok [])]
           (mk_session None None)).
  discriminate.
Defined.

Lemma truncate_content_short (content : string) :
  len content <= MAX_CHARS -> truncate_content content = (content, []).
Proof.
  intros Hshort. unfold truncate_content.
  replace (len content >? MAX_CHARS) with false; [reflexivity|].
  symmetry. rewrite Z.gtb_ltb. apply Z.ltb_ge. exact Hshort.
Qed.

Lemma truncate_content_bound (content : string) :
  len (fst (truncate_content content)) <= MAX_CHARS.
Proof.
  unfold truncate_content. destruct (Z.gtb_spec (len content) MAX_CHARS) as [Hlong|Hshort].
  - cbn [fst]. rewrite str_prefix_len; [lia|]. unfold MAX_CHARS in *. lia.
  - exact Hshort.
Qed.

(** A submit with a document that needs no truncation: the first event is
    the POST that carries the whole document. *)
Lemma generate_clicked_sends (net : transport) (ss : session_state)
    (content q : string) (w : world) :
  document_content ss = Some content ->
  content <> EmptyString -> q <> EmptyString ->
  len content <= MAX_CHARS ->
  exists evs,
    trace (snd (generate_clicked net ss q w))
    = (trace w ++ post_event content q :: evs)%list.
Proof.
  intros Hss Hc Hq Hshort. unfold generate_clicked.
  pose proof Hc as Hc'. pose proof Hq as Hq'.
  apply truthy_true_iff in Hc', Hq'. rewrite Hss, Hc', Hq'. cbn [negb].
  rewrite (truncate_content_short _ Hshort).
  replace (shows [] w) with w
    by (destruct w; unfold shows; simpl; now rewrite app_nil_r).
  rewrite (call_gemini_api_dispatch net content q w Hc Hq).
  destruct (retry_loop_events net content q [0; 1; 2; 3; 4] None w)
    as (evs & Hio & _ & _ & Hhead).
  specialize (Hhead ltac:(discriminate)).
  destruct evs as [|ev evs]; [discriminate|]. simpl in Hhead. injection Hhead as ->.
  exists evs.
  destruct (retry_loop net (payload content q) [0; 1; 2; 3; 4] (mk_frame None w))
    as [[summary|e] [b w']]; simpl in Hio |- *; subst w'; reflexivity.
Qed.

(** X14. From upload to request: when a single uploaded file gives the
    non-empty text [t], the stored document is [t] between the START OF FILE
    and END OF FILE markers that name the file; if that is at most 150,000
    characters, a submit with a question then sends, as its first event, a
    POST whose prompt embeds exactly this document and the question. *)
Theorem single_file_reaches_the_request
    (net : transport) (available : bool) (f : uploaded_file) (t q : string)
    (ss : session_state) (w : world) :
  fst (extract_text_from_file available f) = t ->
  t <> EmptyString -> q <> EmptyString ->
  len (file_chunk (name f) t) <= 150000 ->
  let stored := "--- START OF FILE: " ++ name f ++ " ---" ++ nl ++ t ++ nl
                ++ "--- END OF FILE: " ++ name f ++ " ---" ++ nl ++ nl in
  document_content (fst (process_uploads available [f] ss)) = Some stored
  /\ exists evs,
       trace (snd (generate_clicked net (fst (process_uploads available [f] ss)) q w))
       = (trace w ++ EvPost API_URL headers (payload stored q) :: evs)%list.
Proof.
  intros Ht Hne Hq Hlen stored.
  assert (Hdoc : document_content (fst (process_uploads available [f] ss))
                 = Some (file_chunk (name f) t)).
  { rewrite process_uploads_unfold by discriminate. cbn [fst document_content].
    rewrite process_files_chunks. cbn [app flat_map]. rewrite Ht.
    apply truthy_true_iff in Hne. now rewrite Hne. }
  split; [exact Hdoc|].
  apply (generate_clicked_sends net _ (file_chunk (name f) t) q w Hdoc);
    [|exact Hq|exact Hlen].
  apply truthy_true_iff. reflexivity.
Qed.

Lemma single_file_reaches_the_request_witness :
  document_content
    (fst (process_uploads false
            [mk_file "notes.txt" (Ok "Revenue grew 4%.") (Ok [])]
            (mk_session None None)))
  = Some ("--- START OF FILE: " ++ "notes.txt" ++ " ---" ++ nl ++ "Revenue grew 4%."
          ++ nl ++ "--- END OF FILE: " ++ "notes.txt" ++ " ---" ++ nl ++ nl).
Proof.
  apply (single_file_reaches_the_request
           (scripted [] (answered "By 4%.")) false
           (mk_file "notes.txt" (Ok "Revenue grew 4%.") (Ok []))
           "Revenue grew 4%." "How much did revenue grow?"
           (mk_session None None) fresh).
  - reflexivity.
  - discriminate.
  - discriminate.
  - vm_compute. discriminate.
Defined.

(** X15. When none of the uploaded files gives any text (unsupported
    types, failed readings, empty files), the upload step still ends with
    the notice "Successfully processed N file(s)." for all N of them and
    stores the empty document; a submit then shows the request to upload
    documents and sends nothing, whatever the question. *)
Theorem upload_without_text_then_submit_sends_nothing
    (net : transport) (available : bool) (files : list uploaded_file)
    (ss : session_state) (q : string) (w : world) :
  files <> [] ->
  Forall (fun f => fst (extract_text_from_file available f) = EmptyString) files ->
  exists shown : list widget,
    process_uploads available files ss
    = (mk_session (Some EmptyString) (summary_result ss),
       (shown ++ [Success ("Successfully processed "
                           ++ str_int (Z.of_nat (length files)) ++ " file(s).")])%list)
    /\ generate_clicked net (fst (process_uploads available files ss)) q w
       = (Ok (mk_session (Some EmptyString) (summary_result ss)),
          mk_world (posts w)
            (trace w ++ [EvInfo "Please upload your document files in the sidebar to begin."])).
Proof.
  intros Hne Hall.
  assert (Hchunks : fst (process_files available files [] []) = []).
  { rewrite process_files_chunks. cbn [app]. clear Hne.
    induction Hall as [|f files Hf _ IH]; [reflexivity|].
    cbn [flat_map]. rewrite Hf. exact IH. }
  rewrite process_uploads_unfold by assumption. rewrite Hchunks.
  eexists. split; reflexivity.
Qed.

Lemma upload_without_text_then_submit_sends_nothing_witness :
  exists shown : list widget,
    process_uploads false
      [mk_file "minutes.docx" (Ok "Agenda") (Ok []);
       mk_file "scan.pdf" (Ok "Agenda") (Ok [Ok (Some "Agenda")])]
      (mk_session None None)
    = (mk_session (Some EmptyString) None,
       (shown ++ [Success "Successfully processed 2 file(s)."])%list)
    /\ generate_clicked (scripted [] (answered "never asked"))
         (fst (process_uploads false
                 [mk_file "minutes.docx" (Ok "Agenda") (Ok []);
                  mk_file "scan.pdf" (Ok "Agenda") (Ok [Ok (Some "Agenda")])]
                 (mk_session None None)))
         "What is on the agenda?" fresh
       = (Ok (mk_session (Some EmptyString) None),
          mk_world 0 [EvInfo "Please upload your document files in the sidebar to begin."]).
Proof.
  apply (upload_without_text_then_submit_sends_nothing
           (scripted [] (answered "never asked")) false
           [mk_file "minutes.docx" (Ok "Agenda") (Ok []);
            mk_file "scan.pdf" (Ok "Agenda") (Ok [Ok (Some "Agenda")])]
           (mk_session None None) "What is on the agenda?" fresh).
  - discriminate.
  - repeat constructor.
Defined.

(** X16. The preview shown under the upload is never longer than 1,003
    characters: a document of at most 1,000 characters is shown whole, a
    longer one as its first 1,000 characters followed by three dots. *)
Theorem preview_is_bounded (content : string) :
  len (preview_text content) <= 1003
  /\ (len content <= 1000 -> preview_text content = content)
  /\ (1000 < len content ->
      preview_text content = substring 0 (Z.to_nat 1000) content ++ "..."
      /\ len (preview_text content) = 1003).
Proof.
  assert (Hshort : len content <= 1000 -> preview_text content = content).
  { intros H. unfold preview_text.
    replace (len content >? 1000) with false
      by (symmetry; rewrite Z.gtb_ltb; now apply Z.ltb_ge).
    now rewrite str_prefix_all, str_app_nil_r. }
  assert (Hlong : 1000 < len content ->
    preview_text content = substring 0 (Z.to_nat 1000) content ++ "..."
    /\ len (preview_text content) = 1003).
  { intros H. unfold preview_text.
    replace (len content >? 1000) with true
      by (symmetry; now apply Z.gtb_lt).
    split; [now rewrite str_prefix_substring|].
    rewrite len_app, str_prefix_len by lia. reflexivity. }
  split; [|split; assumption].
  destruct (Z.le_gt_cases (len content) 1000) as [H|H].
  - rewrite (Hshort H). lia.
  - destruct (Hlong H) as [_ ->]. lia.
Qed.

(** X17. Without a stored document, with an empty one, or with an empty
    question, a submit never reaches the client: the session is returned
    unchanged and the only new event is an info or error notice, so no POST
    is sent and nothing sleeps. *)
Theorem submit_without_inputs_sends_nothing
    (net : transport) (ss : session_state) (q : string) (w : world) :
  document_content ss = None \/ document_content ss = Some EmptyString
  \/ q = EmptyString ->
  exists msg : string,
    generate_clicked net ss q w = (Ok ss, mk_world (posts w) (trace w ++ [EvInfo msg]))
    \/ generate_clicked net ss q w = (Ok ss, mk_world (posts w) (trace w ++ [EvError msg])).
Proof.
  intros H. unfold generate_clicked, show.
  destruct (document_content ss) as [content|] eqn:Hdoc.
  - destruct (truthy content) eqn:Hc; cbn [negb].
    + destruct H as [H|[H|H]]; [discriminate| |].
      * injection H as ->. discriminate Hc.
      * subst q. cbn [truthy negb]. eexists. right. reflexivity.
    + eexists. left. reflexivity.
  - eexists. left. reflexivity.
Qed.

Lemma submit_without_inputs_sends_nothing_witness :
  exists msg : string,
    generate_clicked (scripted [] (answered "never asked"))
      (mk_session (Some "Revenue grew 4%.") None) EmptyString fresh
    = (Ok (mk_session (Some "Revenue grew 4%.") None),
       mk_world (posts fresh) (trace fresh ++ [EvInfo msg]))
    \/ generate_clicked (scripted [] (answered "never asked"))
         (mk_session (Some "Revenue grew 4%.") None) EmptyString fresh
       = (Ok (mk_session (Some "Revenue grew 4%.") None),
          mk_world (posts fresh) (trace fresh ++ [EvError msg])).
Proof.
  apply (submit_without_inputs_sends_nothing (scripted [] (answered "never asked"))
           (mk_session (Some "Revenue grew 4%.") None) EmptyString fresh).
  right. right. reflexivity.
Defined.

(** X18. The prompt is the document and the question plus 160 characters
    of markers and instructions; as the controller passes at most 150,000
    characters of document, the prompt of a submitted request is never
    longer than 150,160 characters plus the question. *)
Theorem prompt_length_is_bounded (content d q : string) :
  len (full_prompt d q) = len d + len q + 160
  /\ len (full_prompt (fst (truncate_content content)) q) <= 150160 + len q.
Proof.
  assert (Hlen : forall d', len (full_prompt d' q) = len d' + len q + 160).
  { intros d'. unfold full_prompt. rewrite !len_app.
    change (len document_header) with 26. change (len question_header) with 25.
    change (len instructions_footer) with 109. lia. }
  split; [apply Hlen|]. rewrite Hlen.
  pose proof (truncate_content_bound content) as Hb. unfold MAX_CHARS in Hb. lia.
Qed.

(** X19. No two members of [ResponseSignal] share a value, so none of the
    nine names is an alias of another and a value identifies its member. *)
Theorem signal_value_injective (s1 s2 : ResponseSignal) :
  signal_value s1 = signal_value s2 <-> s1 = s2.
Proof.
  split; [|now intros ->].
  destruct s1, s2; intros H; try reflexivity; discriminate H.
Qed.

(** X20. A submit only ever writes [summary_result]: whenever it returns,
    the stored document is the one it found, so clearing the result after a
    submit gives the same session as clearing it before. *)
Theorem submit_keeps_the_document
    (net : transport) (ss ss' : session_state) (q : string) (w w' : world) :
  generate_clicked net ss q w = (Ok ss', w') ->
  document_content ss' = document_content ss
  /\ clear_clicked ss' = clear_clicked ss.
Proof.
  intros Hrun.
  assert (Hdoc : document_content ss' = document_content ss).
  { unfold generate_clicked in Hrun.
    destruct (document_content ss) as [content|] eqn:Hc.
    - destruct (truthy content); cbn [negb] in Hrun.
      + destruct (truthy q); cbn [negb] in Hrun.
        * destruct (truncate_content content) as [passed notices].
          destruct (call_gemini_api net passed q (shows notices w)) as [[summary|e] w0].
          -- injection Hrun as <- _. reflexivity.
          -- discriminate Hrun.
        * injection Hrun as <- _. exact Hc.
      + injection Hrun as <- _. exact Hc.
    - injection Hrun as <- _. exact Hc. }
  split; [exact Hdoc|]. unfold clear_clicked. now rewrite Hdoc.
Qed.

Lemma submit_keeps_the_document_witness :
  document_content
    (mk_session (Some "Revenue grew 4%.") (Some (JStr "By 4%.")))
  = document_content (mk_session (Some "Revenue grew 4%.") None)
  /\ clear_clicked (mk_session (Some "Revenue grew 4%.") (Some (JStr "By 4%.")))
     = clear_clicked (mk_session (Some "Revenue grew 4%.") None).
Proof.
  apply (submit_keeps_the_document (scripted [] (answered "By 4%."))
           (mk_session (Some "Revenue grew 4%.") None)
           (mk_session (Some "Revenue grew 4%.") (Some (JStr "By 4%.")))
           "How much did revenue grow?" fresh
           (mk_world 1 [post_event "Revenue grew 4%." "How much did revenue grow?"])).
  reflexivity.
Defined.

(** X21. The failure of the first POST reaches the page: on a submit with
    a document and a question, if the first POST raises a
    [RequestException], the submit itself raises the handler's
    [UnboundLocalError]; no result is stored. *)
Theorem submit_raises_when_first_post_fails
    (net : transport) (ss : session_state) (content q : string) (w : world)
    (e : exn) :
  document_content ss = Some content ->
  content <> EmptyString -> q <> EmptyString ->
  net (posts w) = PostRaises e ->
  is_RequestException e = true ->
  exists e', exn_cls e' = UnboundLocalError
    /\ fst (generate_clicked net ss q w) = Raise e'.
Proof.
  intros Hss Hc Hq Hnet He.
  assert (Hp : fst (truncate_content content) <> EmptyString).
  { apply truthy_true_iff, truncate_content_truthy. now apply truthy_true_iff. }
  unfold generate_clicked. apply truthy_true_iff in Hc. pose proof Hq as Hq'.
  apply truthy_true_iff in Hq'. rewrite Hss, Hc, Hq'. cbn [negb].
  destruct (truncate_content content) as [passed notices]. cbn [fst] in Hp.
  destruct (first_post_failure_escapes net passed q (shows notices w) e Hp Hq Hnet He)
    as (e' & Hcls & Hcall).
  exists e'. rewrite Hcall. split; [exact Hcls|reflexivity].
Qed.

Lemma submit_raises_when_first_post_fails_witness :
  exists e', exn_cls e' = UnboundLocalError
    /\ fst (generate_clicked (scripted [] connection_refused)
              (mk_session (Some "Revenue grew 4%.") None)
              "How much did revenue grow?" fresh)
       = Raise e'.
Proof.
  apply (submit_raises_when_first_post_fails (scripted [] connection_refused)
           (mk_session (Some "Revenue grew 4%.") None)
           "Revenue grew 4%." "How much did revenue grow?" fresh
           (mk_exn ConnectionError "Connection refused")).
  - reflexivity.
  - discriminate.
  - discriminate.
  - reflexivity.
  - reflexivity.
Defined.
